(** * Group service of the thesis-management API: model and properties

    A shallow embedding of [services/group.py].  The relational store is a
    record of tables, every table a list of rows in storage order; the
    SQLAlchemy session is a pair of the committed store and the
    transaction's working copy, threaded through a small state-and-exception
    monad.  An ORM object returned by a query is the position of its row in
    the table together with the row read there, so that two queries that
    find the same row yield the same object. *)

From stdpp Require Import base decidable option numbers list strings.

Open Scope Z_scope.

(** ** Rows *)

(** [uuid.UUID]: a 128-bit identifier; only equality is ever used. *)
Definition UUID := N.
Bind Scope N_scope with UUID.

(** Modelled from the spec: [models/model.py] is not part of the sources.
    A group row has the columns the service reads and writes: the primary
    key, the name, the leader, the cached member count and the nullable
    thesis reference. *)
Module Group.
Record t := mk
  { id : UUID; name : string; leader_id : UUID; quantity : Z;
    thesis_id : option UUID }.
Definition set_name (v : string) (g : t) : t :=
  mk (id g) v (leader_id g) (quantity g) (thesis_id g).
Definition set_leader_id (v : UUID) (g : t) : t :=
  mk (id g) (name g) v (quantity g) (thesis_id g).
Definition set_quantity (v : Z) (g : t) : t :=
  mk (id g) (name g) (leader_id g) v (thesis_id g).
Definition set_thesis_id (v : option UUID) (g : t) : t :=
  mk (id g) (name g) (leader_id g) (quantity g) v.
End Group.

(** Modelled from the spec: a membership row, the (group_id, student_id)
    pair and the leader flag. *)
Module GroupMember.
Record t := mk { group_id : UUID; student_id : UUID; is_leader : bool }.
Definition set_is_leader (v : bool) (m : t) : t :=
  mk (group_id m) (student_id m) v.
End GroupMember.

(** Modelled from the spec: an invitation row.  The service only filters
    invitations by [group_id]; [other] stands for the columns it never
    reads. *)
Module Invite.
Record t := mk { group_id : UUID; other : N }.
End Invite.

(** Modelled from the spec: a thesis row, its primary key and status code. *)
Module Thesis.
Record t := mk { id : UUID; status : Z }.
Definition set_status (v : Z) (th : t) : t := mk (id th) v.
End Thesis.

(** Modelled from the spec: the two profile tables. *)
Module Information.
Record t := mk { user_id : UUID; first_name : string; last_name : string }.
End Information.

Module StudentInfo.
Record t := mk { user_id : UUID; student_code : string }.
End StudentInfo.

(** Response schemas of [schemas/group.py], as the service fills them. *)
Module MemberDetailResponse.
Record t := mk
  { user_id : UUID; full_name : string; student_code : string;
    is_leader : bool }.
End MemberDetailResponse.

Module GroupWithMembersResponse.
Record t := mk
  { id : UUID; name : string; leader_id : UUID;
    members : list MemberDetailResponse.t }.
End GroupWithMembersResponse.

(** Request schemas of [schemas/group.py], with the fields the service
    reads. *)
Module GroupCreate.
Record t := mk { name : string }.
End GroupCreate.

Module GroupMemberCreate.
Record t := mk { student_id : UUID }.
End GroupMemberCreate.

(** ** Store and session *)

Record DB := mkDB
  { groups : list Group.t;
    group_members : list GroupMember.t;
    invites : list Invite.t;
    theses : list Thesis.t;
    informations : list Information.t;
    student_infos : list StudentInfo.t }.

Definition with_groups (f : list Group.t → list Group.t) (d : DB) : DB :=
  mkDB (f (groups d)) (group_members d) (invites d) (theses d)
       (informations d) (student_infos d).
Definition with_group_members
    (f : list GroupMember.t → list GroupMember.t) (d : DB) : DB :=
  mkDB (groups d) (f (group_members d)) (invites d) (theses d)
       (informations d) (student_infos d).
Definition with_invites (f : list Invite.t → list Invite.t) (d : DB) : DB :=
  mkDB (groups d) (group_members d) (f (invites d)) (theses d)
       (informations d) (student_infos d).
Definition with_theses (f : list Thesis.t → list Thesis.t) (d : DB) : DB :=
  mkDB (groups d) (group_members d) (invites d) (f (theses d))
       (informations d) (student_infos d).

(** A session sees [pending], the working copy of its transaction; a commit
    publishes it as [committed].  [commits] counts the commits issued. *)
Record Session := mkSession
  { committed : DB; pending : DB; commits : nat }.

(** The session a request starts with. *)
Definition open_session (d : DB) : Session := mkSession d d 0.

(** ** Exceptions and the service monad *)

Inductive exn :=
  | HTTPException (status_code : Z)
  | AttributeError.

Definition HTTP_400_BAD_REQUEST : Z := 400.
Definition HTTP_403_FORBIDDEN : Z := 403.
Definition HTTP_404_NOT_FOUND : Z := 404.

(** The three failure kinds of the specification. *)
Definition NotFound : exn := HTTPException HTTP_404_NOT_FOUND.
Definition Forbidden : exn := HTTPException HTTP_403_FORBIDDEN.
Definition Conflict : exn := HTTPException HTTP_400_BAD_REQUEST.

Inductive outcome (A : Type) :=
  | Return (a : A)
  | Raise (e : exn).
Arguments Return {A} a.
Arguments Raise {A} e.

Definition M (A : Type) : Type := Session → outcome A * Session.

Definition raise {A} (e : exn) : M A := λ s, (Raise e, s).

#[global] Instance M_ret : MRet M := λ A a s, (Return a, s).
#[global] Instance M_bind : MBind M := λ A B k m s,
  match m s with
  | (Return a, s') => k a s'
  | (Raise e, s') => (Raise e, s')
  end.

(** [db.query(T).filter(P).first()]: the first row of the table that
    satisfies the filter, with its position. *)
Definition query_first {R} (table : DB → list R) (P : R → Prop)
    `{∀ r, Decision (P r)} : M (option (nat * R)) :=
  λ s, (Return (list_find P (table (pending s))), s).

(** [db.query(T).filter(P).all()]. *)
Definition query_all {R} (table : DB → list R) (P : R → Prop)
    `{∀ r, Decision (P r)} : M (list R) :=
  λ s, (Return (filter P (table (pending s))), s).

(** A write of the transaction: [db.add], [db.delete], a bulk delete or an
    attribute assignment on a loaded row. *)
Definition db_write (f : DB → DB) : M unit :=
  λ s, (Return tt, mkSession (committed s) (f (pending s)) (commits s)).

(** [db.commit()]. *)
Definition db_commit : M unit :=
  λ s, (Return tt, mkSession (pending s) (pending s) (S (commits s))).

(** ** The service *)

Definition is_member_of_any_group (user_id : UUID) : M bool :=
  r ← query_first group_members (λ m, GroupMember.student_id m = user_id);
  mret (bool_decide (r ≠ None)).

(** [new_id] is the primary key the store gives the inserted group row at
    [db.flush()]. *)
Definition create_group (group : GroupCreate.t) (user_id new_id : UUID)
    : M Group.t :=
  is_existing_member ←
    query_first group_members (λ m, GroupMember.student_id m = user_id);
  match is_existing_member with
  | Some _ => raise (HTTPException HTTP_400_BAD_REQUEST)
  | None =>
      let new_group :=
        Group.mk new_id (GroupCreate.name group) user_id 1 None in
      db_write (with_groups (λ t, t ++ [new_group]));;
      let group_leader := GroupMember.mk (Group.id new_group) user_id true in
      db_write (with_group_members (λ t, t ++ [group_leader]));;
      db_commit;;
      mret new_group
  end.

Definition add_member (group_id : UUID) (member : GroupMemberCreate.t)
    (leader_id : UUID) : M GroupMember.t :=
  group ← query_first groups (λ g, Group.id g = group_id);
  match group with
  | None => raise (HTTPException HTTP_404_NOT_FOUND)
  | Some (gi, g) =>
      if decide (Group.leader_id g ≠ leader_id) then
        raise (HTTPException HTTP_403_FORBIDDEN)
      else if decide (Group.quantity g >= 4) then
        raise (HTTPException HTTP_400_BAD_REQUEST)
      else
        taken ←
          is_member_of_any_group (GroupMemberCreate.student_id member);
        if taken : bool then raise (HTTPException HTTP_400_BAD_REQUEST)
        else
          let new_member :=
            GroupMember.mk group_id (GroupMemberCreate.student_id member)
              false in
          db_write (with_group_members (λ t, t ++ [new_member]));;
          db_write (with_groups
            (alter (λ r, Group.set_quantity (Group.quantity r + 1) r) gi));;
          db_commit;;
          mret new_member
  end.

Definition remove_member (group_id member_id leader_id : UUID) : M unit :=
  group ← query_first groups (λ g, Group.id g = group_id);
  match group with
  | None => raise (HTTPException HTTP_404_NOT_FOUND)
  | Some (gi, g) =>
      if decide (Group.leader_id g ≠ leader_id) then
        raise (HTTPException HTTP_403_FORBIDDEN)
      else if decide (member_id = leader_id) then
        raise (HTTPException HTTP_400_BAD_REQUEST)
      else
        member_to_remove ←
          query_first group_members
            (λ m, GroupMember.group_id m = group_id
                  ∧ GroupMember.student_id m = member_id);
        match member_to_remove with
        | None => raise (HTTPException HTTP_404_NOT_FOUND)
        | Some (mi, _) =>
            db_write (with_group_members (delete mi));;
            db_write (with_groups
              (alter (λ r, Group.set_quantity (Group.quantity r - 1) r) gi));;
            db_commit;;
            mret tt
        end
  end.

Definition get_members (group_id : UUID) : M (list GroupMember.t) :=
  query_all group_members (λ m, GroupMember.group_id m = group_id).

(** Assigning an attribute of [None] raises [AttributeError]: that is what
    [current_leader_member.is_leader = False] does when the query for the
    current leader's row found nothing. *)
Definition transfer_leader (group_id new_leader_id current_leader_id : UUID)
    : M unit :=
  group ← query_first groups (λ g, Group.id g = group_id);
  match group with
  | None => raise (HTTPException HTTP_404_NOT_FOUND)
  | Some (gi, g) =>
      if decide (Group.leader_id g ≠ current_leader_id) then
        raise (HTTPException HTTP_403_FORBIDDEN)
      else
        current_leader_member ←
          query_first group_members
            (λ m, GroupMember.student_id m = current_leader_id
                  ∧ GroupMember.group_id m = group_id);
        new_leader_member ←
          query_first group_members
            (λ m, GroupMember.student_id m = new_leader_id
                  ∧ GroupMember.group_id m = group_id);
        match new_leader_member with
        | None => raise (HTTPException HTTP_404_NOT_FOUND)
        | Some (ni, _) =>
            match current_leader_member with
            | None => raise AttributeError
            | Some (ci, _) =>
                db_write (with_group_members
                  (alter (GroupMember.set_is_leader false) ci));;
                db_write (with_group_members
                  (alter (GroupMember.set_is_leader true) ni));;
                db_write (with_groups
                  (alter (Group.set_leader_id new_leader_id) gi));;
                db_commit;;
                mret tt
            end
        end
  end.

(** [for x in xs: acc = body x acc]. *)
Fixpoint for_each {A B} (xs : list A) (body : A → B → M B) (acc : B) : M B :=
  match xs with
  | [] => mret acc
  | x :: xs' => acc' ← body x acc; for_each xs' body acc'
  end.

(** The member loop, which [get_all_groups_for_user] and
    [get_detailed_members_of_group] both spell out: a detail record is
    appended when [info and student_info] holds. *)
Definition member_details_body (member : GroupMember.t)
    (member_details_list : list MemberDetailResponse.t)
    : M (list MemberDetailResponse.t) :=
  let student_user_id := GroupMember.student_id member in
  info ← query_first informations
           (λ r, Information.user_id r = student_user_id);
  student_info ← query_first student_infos
                   (λ r, StudentInfo.user_id r = student_user_id);
  match info, student_info with
  | Some (_, info), Some (_, student_info) =>
      let member_obj :=
        MemberDetailResponse.mk student_user_id
          (Information.last_name info +:+ " " +:+ Information.first_name info)
          (StudentInfo.student_code student_info)
          (GroupMember.is_leader member || false) in
      mret (member_details_list ++ [member_obj])
  | _, _ => mret member_details_list
  end.

Definition get_all_groups_for_user (user_id : UUID)
    : M (list GroupWithMembersResponse.t) :=
  user_memberships ←
    query_all group_members (λ m, GroupMember.student_id m = user_id);
  match user_memberships with
  | [] => mret []
  | _ =>
      for_each user_memberships
        (λ membership all_groups_list,
           let group_id := GroupMember.group_id membership in
           group ← query_first groups (λ g, Group.id g = group_id);
           match group with
           | None => mret all_groups_list
           | Some (_, group) =>
               all_members_in_group ←
                 query_all group_members
                   (λ m, GroupMember.group_id m = group_id);
               member_details_list ←
                 for_each all_members_in_group member_details_body [];
               let group_obj :=
                 GroupWithMembersResponse.mk (Group.id group)
                   (Group.name group) (Group.leader_id group)
                   member_details_list in
               mret (all_groups_list ++ [group_obj])
           end)
        []
  end.

Definition update_group_name (group_id : UUID) (new_name : string)
    (user_id : UUID) : M Group.t :=
  group ← query_first groups (λ g, Group.id g = group_id);
  match group with
  | None => raise (HTTPException HTTP_404_NOT_FOUND)
  | Some (gi, g) =>
      if decide (Group.leader_id g ≠ user_id) then
        raise (HTTPException HTTP_403_FORBIDDEN)
      else
        db_write (with_groups (alter (Group.set_name new_name) gi));;
        db_commit;;
        mret (Group.set_name new_name g)
  end.

Definition get_detailed_members_of_group (group_id : UUID)
    : M (list MemberDetailResponse.t) :=
  group ← query_first groups (λ g, Group.id g = group_id);
  match group with
  | None => raise (HTTPException HTTP_404_NOT_FOUND)
  | Some _ =>
      all_members_in_group ←
        query_all group_members (λ m, GroupMember.group_id m = group_id);
      for_each all_members_in_group member_details_body []
  end.

Definition get_group_with_detailed_members (group_id : UUID)
    : M GroupWithMembersResponse.t :=
  group ← query_first groups (λ g, Group.id g = group_id);
  match group with
  | None => raise (HTTPException HTTP_404_NOT_FOUND)
  | Some (_, group) =>
      members_list ← get_detailed_members_of_group group_id;
      mret (GroupWithMembersResponse.mk (Group.id group) (Group.name group)
              (Group.leader_id group) members_list)
  end.

Definition delete_group (group_id user_id : UUID) : M unit :=
  group ← query_first groups (λ g, Group.id g = group_id);
  match group with
  | None => raise (HTTPException HTTP_404_NOT_FOUND)
  | Some (gi, g) =>
      if decide (Group.leader_id g ≠ user_id) then
        raise (HTTPException HTTP_403_FORBIDDEN)
      else if decide (Group.thesis_id g ≠ None) then
        raise (HTTPException HTTP_400_BAD_REQUEST)
      else
        db_write (with_invites
          (filter (λ r, Invite.group_id r ≠ group_id)));;
        db_write (with_group_members
          (filter (λ r, GroupMember.group_id r ≠ group_id)));;
        db_write (with_groups (delete gi));;
        db_commit;;
        mret tt
  end.

Definition register_thesis_for_group (group_id thesis_id user_id : UUID)
    : M Group.t :=
  group ← query_first groups (λ g, Group.id g = group_id);
  match group with
  | None => raise (HTTPException 404)
  | Some (gi, g) =>
      if decide (Group.leader_id g ≠ user_id) then raise (HTTPException 403)
      else if decide (Group.thesis_id g ≠ None) then
        raise (HTTPException 400)
      else
        thesis ← query_first theses (λ t, Thesis.id t = thesis_id);
        match thesis with
        | None => raise (HTTPException 404)
        | Some (ti, _) =>
            is_thesis_taken ←
              query_first groups (λ r, Group.thesis_id r = Some thesis_id);
            match is_thesis_taken with
            | Some _ => raise (HTTPException 400)
            | None =>
                db_write (with_groups
                  (alter (Group.set_thesis_id (Some thesis_id)) gi));;
                db_write (with_theses (alter (Thesis.set_status 2) ti));;
                db_commit;;
                mret (Group.set_thesis_id (Some thesis_id) g)
            end
        end
  end.

(** ** Calls and runs *)

(** The write operations of the service, with their arguments. *)
Inductive call :=
  | CreateGroup (group : GroupCreate.t) (user_id new_id : UUID)
  | AddMember (group_id : UUID) (member : GroupMemberCreate.t)
      (leader_id : UUID)
  | RemoveMember (group_id member_id leader_id : UUID)
  | TransferLeader (group_id new_leader_id current_leader_id : UUID)
  | UpdateGroupName (group_id : UUID) (new_name : string) (user_id : UUID)
  | DeleteGroup (group_id user_id : UUID)
  | RegisterThesisForGroup (group_id thesis_id user_id : UUID).

Definition exec (c : call) : M unit :=
  match c with
  | CreateGroup n u i => create_group n u i;; mret tt
  | AddMember g s l => add_member g s l;; mret tt
  | RemoveMember g m l => remove_member g m l
  | TransferLeader g n c => transfer_leader g n c
  | UpdateGroupName g n u => update_group_name g n u;; mret tt
  | DeleteGroup g u => delete_group g u
  | RegisterThesisForGroup g t u => register_thesis_for_group g t u;; mret tt
  end.

(** The store a request leaves behind: a request opens a session on the
    committed store and keeps what the session committed. *)
Definition run_call (c : call) (d : DB) : outcome unit * DB :=
  let '(r, s') := exec c (open_session d) in (r, committed s').

(** ** Reading a store *)

Definition group_exists (d : DB) (group_id : UUID) : Prop :=
  ∃ g, g ∈ groups d ∧ Group.id g = group_id.

(** The row that [Group.id == group_id] selects, with its position. *)
Definition find_group (d : DB) (group_id : UUID) : option (nat * Group.t) :=
  list_find (λ g, Group.id g = group_id) (groups d).

Definition in_any_group (d : DB) (user_id : UUID) : Prop :=
  ∃ m, m ∈ group_members d ∧ GroupMember.student_id m = user_id.

Definition member_of (d : DB) (group_id user_id : UUID) : Prop :=
  ∃ m, m ∈ group_members d ∧ GroupMember.group_id m = group_id
       ∧ GroupMember.student_id m = user_id.

(** The membership row of [user_id] in [group_id], with its position. *)
Definition find_member (d : DB) (group_id user_id : UUID)
    : option (nat * GroupMember.t) :=
  list_find (λ m, GroupMember.group_id m = group_id
                  ∧ GroupMember.student_id m = user_id) (group_members d).

(** The membership rows of a group, and how many there are. *)
Definition members_of_group (d : DB) (group_id : UUID) : list GroupMember.t :=
  filter (λ m, GroupMember.group_id m = group_id) (group_members d).

Definition member_count (d : DB) (group_id : UUID) : Z :=
  Z.of_nat (length (members_of_group d group_id)).

(** The leader rows of a group. *)
Definition leaders_of_group (d : DB) (group_id : UUID) : list GroupMember.t :=
  filter (λ m, GroupMember.group_id m = group_id
               ∧ GroupMember.is_leader m = true) (group_members d).

Definition thesis_exists (d : DB) (thesis_id : UUID) : Prop :=
  ∃ t, t ∈ theses d ∧ Thesis.id t = thesis_id.

Definition find_thesis (d : DB) (thesis_id : UUID) : option (nat * Thesis.t) :=
  list_find (λ t, Thesis.id t = thesis_id) (theses d).

(** Some group row references the thesis. *)
Definition thesis_held (d : DB) (thesis_id : UUID) : Prop :=
  ∃ g, g ∈ groups d ∧ Group.thesis_id g = Some thesis_id.

Definition has_information (d : DB) (user_id : UUID) : Prop :=
  ∃ r, r ∈ informations d ∧ Information.user_id r = user_id.

Definition has_student_info (d : DB) (user_id : UUID) : Prop :=
  ∃ r, r ∈ student_infos d ∧ StudentInfo.user_id r = user_id.

(** The detail record of one membership row, when both of the student's
    profile rows are there. *)
Definition member_detail (d : DB) (member : GroupMember.t)
    : option MemberDetailResponse.t :=
  let u := GroupMember.student_id member in
  match list_find (λ r, Information.user_id r = u) (informations d),
        list_find (λ r, StudentInfo.user_id r = u) (student_infos d) with
  | Some (_, info), Some (_, student_info) =>
      Some (MemberDetailResponse.mk u
              (Information.last_name info +:+ " " +:+ Information.first_name info)
              (StudentInfo.student_code student_info)
              (GroupMember.is_leader member))
  | _, _ => None
  end.

(** The entry of one membership row of the user in the answer of
    [get_all_groups_for_user], when the group row is there. *)
Definition group_entry (d : DB) (membership : GroupMember.t)
    : option GroupWithMembersResponse.t :=
  let gid := GroupMember.group_id membership in
  match find_group d gid with
  | None => None
  | Some (_, g) =>
      Some (GroupWithMembersResponse.mk (Group.id g) (Group.name g)
              (Group.leader_id g)
              (omap (member_detail d) (members_of_group d gid)))
  end.

(** ** Reachable stores *)

(** The service starts on a store without groups; theses, invitations and
    profiles are written elsewhere and may be anything. *)
Definition initial (d : DB) : Prop := groups d = [] ∧ group_members d = [].

(** The primary key of the group table: the key the store gives a new group
    row is not the key of a row it holds. *)
Definition key_is_fresh (d : DB) (c : call) : Prop :=
  match c with
  | CreateGroup _ _ new_id => ¬ group_exists d new_id
  | _ => True
  end.

Inductive step (d : DB) : DB → Prop :=
  | step_call (c : call) (d' : DB) :
      key_is_fresh d c → run_call c d = (Return tt, d') → step d d'.

Inductive reachable : DB → Prop :=
  | reachable_initial d : initial d → reachable d
  | reachable_step d d' : reachable d → step d d' → reachable d'.

(** ** The invariants of the data model *)

Definition quantity_is_member_count (d : DB) : Prop :=
  ∀ g, g ∈ groups d → Group.quantity g = member_count d (Group.id g).

Definition one_group_per_student (d : DB) : Prop :=
  NoDup (GroupMember.student_id <$> group_members d).

Definition one_leader_per_group (d : DB) : Prop :=
  ∀ g, g ∈ groups d →
    ∃ m, leaders_of_group d (Group.id g) = [m]
         ∧ GroupMember.student_id m = Group.leader_id g.

(** Keys: group ids are unique and every membership row references a group
    row. *)
Definition keys_consistent (d : DB) : Prop :=
  NoDup (Group.id <$> groups d)
  ∧ ∀ m, m ∈ group_members d → group_exists d (GroupMember.group_id m).

(** The leader of every group has a membership row in it, flagged as
    leader, and no other row of the group is flagged. *)
Definition leader_rows_consistent (d : DB) : Prop :=
  (∀ g, g ∈ groups d →
     ∃ m, m ∈ group_members d ∧ GroupMember.group_id m = Group.id g
          ∧ GroupMember.student_id m = Group.leader_id g
          ∧ GroupMember.is_leader m = true)
  ∧ (∀ m g, m ∈ group_members d → g ∈ groups d →
       GroupMember.group_id m = Group.id g →
       GroupMember.is_leader m = true →
       GroupMember.student_id m = Group.leader_id g).

Definition well_formed (d : DB) : Prop :=
  keys_consistent d ∧ quantity_is_member_count d ∧ one_group_per_student d
  ∧ leader_rows_consistent d.

(** ** What a call that returns has done *)

(** The conditions under which each write operation returns and the store
    it commits, read off its body. *)
Definition returns_with (c : call) (d d' : DB) : Prop :=
  match c with
  | CreateGroup group user_id new_id =>
      ¬ in_any_group d user_id
      ∧ d' = mkDB (groups d
                   ++ [Group.mk new_id (GroupCreate.name group) user_id 1 None])
                  (group_members d ++ [GroupMember.mk new_id user_id true])
                  (invites d) (theses d) (informations d) (student_infos d)
  | AddMember group_id member leader_id =>
      ∃ gi g, find_group d group_id = Some (gi, g)
        ∧ Group.leader_id g = leader_id
        ∧ Group.quantity g < 4
        ∧ ¬ in_any_group d (GroupMemberCreate.student_id member)
        ∧ d' = mkDB
                 (alter (λ r, Group.set_quantity (Group.quantity r + 1) r) gi
                    (groups d))
                 (group_members d
                  ++ [GroupMember.mk group_id
                        (GroupMemberCreate.student_id member) false])
                 (invites d) (theses d) (informations d) (student_infos d)
  | RemoveMember group_id member_id leader_id =>
      ∃ gi g mi m, find_group d group_id = Some (gi, g)
        ∧ Group.leader_id g = leader_id
        ∧ member_id ≠ leader_id
        ∧ find_member d group_id member_id = Some (mi, m)
        ∧ d' = mkDB
                 (alter (λ r, Group.set_quantity (Group.quantity r - 1) r) gi
                    (groups d))
                 (delete mi (group_members d))
                 (invites d) (theses d) (informations d) (student_infos d)
  | TransferLeader group_id new_leader_id current_leader_id =>
      ∃ gi g ci c ni n, find_group d group_id = Some (gi, g)
        ∧ Group.leader_id g = current_leader_id
        ∧ find_member d group_id current_leader_id = Some (ci, c)
        ∧ find_member d group_id new_leader_id = Some (ni, n)
        ∧ d' = mkDB
                 (alter (Group.set_leader_id new_leader_id) gi (groups d))
                 (alter (GroupMember.set_is_leader true) ni
                    (alter (GroupMember.set_is_leader false) ci
                       (group_members d)))
                 (invites d) (theses d) (informations d) (student_infos d)
  | UpdateGroupName group_id new_name user_id =>
      ∃ gi g, find_group d group_id = Some (gi, g)
        ∧ Group.leader_id g = user_id
        ∧ d' = mkDB (alter (Group.set_name new_name) gi (groups d))
                    (group_members d) (invites d) (theses d)
                    (informations d) (student_infos d)
  | DeleteGroup group_id user_id =>
      ∃ gi g, find_group d group_id = Some (gi, g)
        ∧ Group.leader_id g = user_id
        ∧ Group.thesis_id g = None
        ∧ d' = mkDB (delete gi (groups d))
                    (filter (λ m, GroupMember.group_id m ≠ group_id)
                       (group_members d))
                    (filter (λ i, Invite.group_id i ≠ group_id) (invites d))
                    (theses d) (informations d) (student_infos d)
  | RegisterThesisForGroup group_id thesis_id user_id =>
      ∃ gi g ti t, find_group d group_id = Some (gi, g)
        ∧ Group.leader_id g = user_id
        ∧ Group.thesis_id g = None
        ∧ find_thesis d thesis_id = Some (ti, t)
        ∧ ¬ thesis_held d thesis_id
        ∧ d' = mkDB
                 (alter (Group.set_thesis_id (Some thesis_id)) gi (groups d))
                 (group_members d) (invites d)
                 (alter (Thesis.set_status 2) ti (theses d))
                 (informations d) (student_infos d)
  end.

(** The two flag assignments of [transfer_leader], as one pass over the
    membership table. *)
Definition flip_leader (new_leader_id current_leader_id : UUID)
    (m : GroupMember.t) : GroupMember.t :=
  let m1 := if decide (GroupMember.student_id m = current_leader_id)
            then GroupMember.set_is_leader false m else m in
  if decide (GroupMember.student_id m1 = new_leader_id)
  then GroupMember.set_is_leader true m1 else m1.

(** ** Example stores *)

(** Two students with profiles: student 1 has both profile rows, student 2
    has the Information row only.  Theses 7 and 8 exist; one invitation
    waits for group 100. *)
Definition store_start : DB :=
  mkDB [] []
    [Invite.mk 100 1; Invite.mk 200 2]
    [Thesis.mk 7 1; Thesis.mk 8 1]
    [Information.mk 1 "An" "Nguyen"; Information.mk 2 "Binh" "Tran"]
    [StudentInfo.mk 1 "SV001"].

(** After student 1 created group G1 under the key 100. *)
Definition store_created : DB :=
  mkDB [Group.mk 100 "G1" 1 1 None]
       [GroupMember.mk 100 1 true]
       (invites store_start) (theses store_start)
       (informations store_start) (student_infos store_start).

(** After the leader added student 2. *)
Definition store_two : DB :=
  mkDB [Group.mk 100 "G1" 1 2 None]
       [GroupMember.mk 100 1 true; GroupMember.mk 100 2 false]
       (invites store_start) (theses store_start)
       (informations store_start) (student_infos store_start).

(** After the leader handed the group over to student 2. *)
Definition store_handed : DB :=
  mkDB [Group.mk 100 "G1" 2 2 None]
       [GroupMember.mk 100 1 false; GroupMember.mk 100 2 true]
       (invites store_start) (theses store_start)
       (informations store_start) (student_infos store_start).

(** After the leader added student 3 to [store_two]. *)
Definition store_three : DB :=
  mkDB [Group.mk 100 "G1" 1 3 None]
       [GroupMember.mk 100 1 true; GroupMember.mk 100 2 false;
        GroupMember.mk 100 3 false]
       (invites store_start) (theses store_start)
       (informations store_start) (student_infos store_start).

(** A full group, and a second group that holds thesis 7. *)
Definition store_full : DB :=
  mkDB [Group.mk 100 "G1" 1 4 None; Group.mk 200 "G2" 5 1 (Some 7%N)]
       [GroupMember.mk 100 1 true; GroupMember.mk 100 2 false;
        GroupMember.mk 100 3 false; GroupMember.mk 100 4 false;
        GroupMember.mk 200 5 true]
       (invites store_start) (theses store_start)
       (informations store_start) (student_infos store_start).

(** A store in which group 200 references thesis 9, which has no row. *)
Definition store_dangling : DB :=
  mkDB [Group.mk 100 "G1" 1 1 None; Group.mk 200 "G2" 5 1 (Some 9%N)]
       [GroupMember.mk 100 1 true; GroupMember.mk 200 5 true]
       [] [Thesis.mk 7 1] [] [].

(** ** Further stores and invariants *)

(** A store on which the leader of group 100 has no membership row. *)
Definition store_leaderless : DB :=
  mkDB [Group.mk 100 "G1" 1 1 None] [GroupMember.mk 100 2 false]
       [] [] [] [].

(** After the leader of [store_two] registered thesis 8. *)
Definition store_registered : DB :=
  mkDB [Group.mk 100 "G1" 1 2 (Some 8%N)]
       [GroupMember.mk 100 1 true; GroupMember.mk 100 2 false]
       (invites store_start) [Thesis.mk 7 1; Thesis.mk 8 2]
       (informations store_start) (student_infos store_start).

(** A group has between one and four members by its quantity. *)
Definition group_sizes_bounded (d : DB) : Prop :=
  ∀ g, g ∈ groups d → 1 ≤ Group.quantity g ≤ 4.

(** A thesis is referenced by at most one group row, and a referenced
    thesis has a row with status 2. *)
Definition thesis_refs_consistent (d : DB) : Prop :=
  (∀ g1 g2 t, g1 ∈ groups d → g2 ∈ groups d →
     Group.thesis_id g1 = Some t → Group.thesis_id g2 = Some t → g1 = g2)
  ∧ (∀ g t, g ∈ groups d → Group.thesis_id g = Some t →
       ∃ th, th ∈ theses d ∧ Thesis.id th = t ∧ Thesis.status th = 2).

(** ** Lists as tables *)

Lemma list_find_is_None {A} (P : A → Prop) `{∀ x, Decision (P x)}
    (l : list A) :
  list_find P l = None ↔ ¬ ∃ x, x ∈ l ∧ P x.
Proof.
  rewrite list_find_None, Forall_forall. split.
  - intros Hall (x & Hx & HP). by apply (Hall x).
  - intros Hno x Hx HP. apply Hno. by exists x.
Qed.

Lemma list_find_is_Some {A} (P : A → Prop) `{∀ x, Decision (P x)}
    (l : list A) :
  (∃ x, x ∈ l ∧ P x) → ∃ i x, list_find P l = Some (i, x).
Proof.
  intros Hex. destruct (list_find P l) as [[i x]|] eqn:E; [by eauto|].
  apply list_find_is_None in E. tauto.
Qed.

Lemma alter_found {A} (f : A → A) (l : list A) (i : nat) (x : A) :
  l !! i = Some x → alter f i l = <[i := f x]> l.
Proof.
  intros Hi. apply list_eq. intros j.
  destruct (decide (i = j)) as [<-|Hne].
  - rewrite list_lookup_alter_eq, Hi. simpl. symmetry.
    apply list_lookup_insert_eq. by eapply lookup_lt_Some.
  - by rewrite list_lookup_alter_ne, list_lookup_insert_ne.
Qed.

Lemma insert_same {A} (l : list A) (i : nat) (x : A) :
  l !! i = Some x → <[i := x]> l = l.
Proof.
  intros Hi. apply list_eq. intros j.
  destruct (decide (i = j)) as [<-|Hne].
  - rewrite list_lookup_insert_eq; [done|]. by eapply lookup_lt_Some.
  - by rewrite list_lookup_insert_ne.
Qed.

(** ** Queries *)

Lemma find_group_None d gid :
  find_group d gid = None ↔ ¬ group_exists d gid.
Proof. apply list_find_is_None. Qed.

Lemma find_group_lookup d gid gi g :
  find_group d gid = Some (gi, g) →
  groups d !! gi = Some g ∧ Group.id g = gid.
Proof. unfold find_group. rewrite list_find_Some. tauto. Qed.

Lemma find_group_elem d gid gi g :
  find_group d gid = Some (gi, g) → g ∈ groups d ∧ Group.id g = gid.
Proof.
  intros [Hi Hid]%find_group_lookup. split; [|done].
  by eapply list_elem_of_lookup_2.
Qed.

Lemma in_any_group_find d u :
  in_any_group d u ↔
  list_find (λ m, GroupMember.student_id m = u) (group_members d) ≠ None.
Proof.
  unfold in_any_group. split.
  - intros Hex Hnone. apply list_find_is_None in Hnone. tauto.
  - intros Hsome.
    destruct (list_find _ _) as [[i m]|] eqn:E; [|done].
    apply list_find_Some in E as (Hi & Hm & _).
    exists m. split; [by eapply list_elem_of_lookup_2|done].
Qed.

Lemma find_member_None d gid u :
  find_member d gid u = None ↔ ¬ member_of d gid u.
Proof. apply list_find_is_None. Qed.

Lemma find_member_lookup d gid u mi m :
  find_member d gid u = Some (mi, m) →
  group_members d !! mi = Some m
  ∧ GroupMember.group_id m = gid ∧ GroupMember.student_id m = u.
Proof. unfold find_member. rewrite list_find_Some. tauto. Qed.

(** [transfer_leader] writes the two conditions of the filter in the other
    order. *)
Lemma find_member_swapped d gid u :
  list_find (λ m, GroupMember.student_id m = u
                  ∧ GroupMember.group_id m = gid) (group_members d)
  = find_member d gid u.
Proof. apply list_find_ext. intros m. tauto. Qed.

Lemma find_thesis_None d tid :
  find_thesis d tid = None ↔ ¬ thesis_exists d tid.
Proof. apply list_find_is_None. Qed.

Lemma thesis_held_find d tid :
  thesis_held d tid ↔
  list_find (λ r, Group.thesis_id r = Some tid) (groups d) ≠ None.
Proof.
  unfold thesis_held. split.
  - intros Hex Hnone. apply list_find_is_None in Hnone. tauto.
  - intros Hsome.
    destruct (list_find _ _) as [[i g]|] eqn:E; [|done].
    apply list_find_Some in E as (Hi & Hg & _).
    exists g. split; [by eapply list_elem_of_lookup_2|done].
Qed.

(** ** Running the service *)

Ltac run :=
  unfold mbind, M_bind, mret, M_ret, raise, query_first, query_all, db_write,
    db_commit, with_groups, with_group_members, with_invites, with_theses;
  simpl.

(** The three failure kinds are distinct, and none is a crash. *)
Lemma failure_kinds_distinct :
  NotFound ≠ Forbidden ∧ NotFound ≠ Conflict ∧ Forbidden ≠ Conflict
  ∧ AttributeError ≠ NotFound ∧ AttributeError ≠ Forbidden
  ∧ AttributeError ≠ Conflict.
Proof. by split_and!. Qed.

(** ** Adding a member *)

(** C1. [add_member] checks, in this order: the group exists (NotFound),
    the caller is its leader (Forbidden), the group has fewer than four
    members by its quantity (Conflict), the student belongs to no group
    (Conflict).  When all four pass it appends the membership row
    (group_id, student_id, is_leader = false), raises the quantity of the
    group row by one, and commits. *)
Theorem add_member_checks (group_id : UUID) (member : GroupMemberCreate.t)
    (leader_id : UUID) (s : Session) :
  let d := pending s in
  let student_id := GroupMemberCreate.student_id member in
  let r := add_member group_id member leader_id s in
  (¬ group_exists d group_id → r = (Raise NotFound, s)) ∧
  (∀ gi g, find_group d group_id = Some (gi, g) →
     (Group.leader_id g ≠ leader_id → r = (Raise Forbidden, s)) ∧
     (Group.leader_id g = leader_id → 4 ≤ Group.quantity g →
        r = (Raise Conflict, s)) ∧
     (Group.leader_id g = leader_id → Group.quantity g < 4 →
        in_any_group d student_id → r = (Raise Conflict, s)) ∧
     (Group.leader_id g = leader_id → Group.quantity g < 4 →
        ¬ in_any_group d student_id →
        let new_member := GroupMember.mk group_id student_id false in
        let d' :=
          mkDB (<[gi := Group.set_quantity (Group.quantity g + 1) g]>
                  (groups d))
               (group_members d ++ [new_member])
               (invites d) (theses d) (informations d) (student_infos d) in
        r = (Return new_member, mkSession d' d' (S (commits s))))).
Proof.
  intros d student_id r. subst r student_id. unfold add_member, is_member_of_any_group. run.
  fold (find_group (pending s) group_id). fold d.
  split.
  - intros Hno. apply find_group_None in Hno. by rewrite Hno.
  - intros gi g Hg. rewrite Hg.
    apply find_group_lookup in Hg as [Hgi _].
    split_and!; intros; repeat case_decide; try done; try lia.
    + rewrite bool_decide_eq_true_2; [done|]. by apply in_any_group_find.
    + rewrite bool_decide_eq_false_2; [|by rewrite <-in_any_group_find].
      by rewrite (alter_found _ _ _ _ Hgi).
Qed.

(** ** Atomicity *)

(** C2. A write operation that raises leaves the session as it found it:
    the committed store, the working copy and the number of commits are
    those before the call, so no write precedes a raise.  A write operation
    that returns has issued exactly one commit, and the committed store is
    the working copy with all the writes of the call. *)
Theorem write_operations_atomic (c : call) (s : Session) :
  match exec c s with
  | (Raise _, s') => s' = s
  | (Return _, s') =>
      committed s' = pending s' ∧ commits s' = S (commits s)
  end.
Proof.
  destruct c; simpl;
    unfold create_group, add_member, is_member_of_any_group, remove_member,
      transfer_leader, update_group_name, delete_group,
      register_thesis_for_group;
    run;
    repeat (case_match; simplify_eq/=; try done).
Qed.

(** ** Removing a member *)

(** C8. [remove_member] checks, in this order: the group exists (NotFound),
    the caller is its leader (Forbidden), the member to remove is not the
    caller, that is the leader (Conflict), the member has a row in the
    group (NotFound).  When all pass it deletes that one membership row,
    lowers the quantity of the group row by one, and commits. *)
Theorem remove_member_checks (group_id member_id leader_id : UUID)
    (s : Session) :
  let d := pending s in
  let r := remove_member group_id member_id leader_id s in
  (¬ group_exists d group_id → r = (Raise NotFound, s)) ∧
  (∀ gi g, find_group d group_id = Some (gi, g) →
     (Group.leader_id g ≠ leader_id → r = (Raise Forbidden, s)) ∧
     (Group.leader_id g = leader_id → member_id = leader_id →
        r = (Raise Conflict, s)) ∧
     (Group.leader_id g = leader_id → member_id ≠ leader_id →
        ¬ member_of d group_id member_id → r = (Raise NotFound, s)) ∧
     (Group.leader_id g = leader_id → member_id ≠ leader_id →
        ∀ mi m, find_member d group_id member_id = Some (mi, m) →
        let d' :=
          mkDB (<[gi := Group.set_quantity (Group.quantity g - 1) g]>
                  (groups d))
               (delete mi (group_members d))
               (invites d) (theses d) (informations d) (student_infos d) in
        r = (Return tt, mkSession d' d' (S (commits s))))).
Proof.
  intros d r. subst r d. unfold remove_member. run.
  fold (find_group (pending s) group_id).
  split.
  - intros Hno. apply find_group_None in Hno. by rewrite Hno.
  - intros gi g Hg. rewrite Hg.
    apply find_group_lookup in Hg as [Hgi _].
    split_and!; intros; repeat case_decide; try done.
    + match goal with H : ¬ member_of _ _ _ |- _ =>
        apply find_member_None in H; unfold find_member in H; by rewrite H end.
    + match goal with H : find_member _ _ _ = Some _ |- _ =>
        unfold find_member in H; rewrite H end.
      by rewrite (alter_found _ _ _ _ Hgi).
Qed.

(** ** Deleting a group *)

(** C9. [delete_group] checks, in this order: the group exists (NotFound),
    the caller is its leader (Forbidden), no thesis is set (Conflict).
    When all pass, the invitations and the membership rows that carry the
    group's id are gone, the group row is gone, every other row of the
    three tables is kept in place, and the other tables are untouched. *)
Theorem delete_group_checks (group_id user_id : UUID) (s : Session) :
  let d := pending s in
  let r := delete_group group_id user_id s in
  (¬ group_exists d group_id → r = (Raise NotFound, s)) ∧
  (∀ gi g, find_group d group_id = Some (gi, g) →
     (Group.leader_id g ≠ user_id → r = (Raise Forbidden, s)) ∧
     (Group.leader_id g = user_id → Group.thesis_id g ≠ None →
        r = (Raise Conflict, s)) ∧
     (Group.leader_id g = user_id → Group.thesis_id g = None →
        let d' :=
          mkDB (delete gi (groups d))
               (filter (λ m, GroupMember.group_id m ≠ group_id)
                       (group_members d))
               (filter (λ i, Invite.group_id i ≠ group_id) (invites d))
               (theses d) (informations d) (student_infos d) in
        r = (Return tt, mkSession d' d' (S (commits s)))
        ∧ (∀ m, m ∈ group_members d' ↔
                m ∈ group_members d ∧ GroupMember.group_id m ≠ group_id)
        ∧ (∀ i, i ∈ invites d' ↔
                i ∈ invites d ∧ Invite.group_id i ≠ group_id)
        ∧ (∀ j, j < gi → groups d' !! j = groups d !! j)%nat
        ∧ (∀ j, gi ≤ j → groups d' !! j = groups d !! S j)%nat)).
Proof.
  intros d r. subst r d. unfold delete_group. run.
  fold (find_group (pending s) group_id).
  split.
  - intros Hno. apply find_group_None in Hno. by rewrite Hno.
  - intros gi g Hg. rewrite Hg.
    split_and!; intros; repeat case_decide; try done.
    split_and!; [done|..].
    + intros m. rewrite list_elem_of_filter. tauto.
    + intros i. rewrite list_elem_of_filter. tauto.
    + intros j Hj. by apply list_lookup_delete_lt.
    + intros j Hj. by apply list_lookup_delete_ge.
Qed.

(** ** Transferring the leadership *)

(** What [transfer_leader] does, case by case; the last case is the crash
    on a leader without a membership row. *)
Lemma transfer_leader_cases (group_id new_leader_id current_leader_id : UUID)
    (s : Session) :
  let d := pending s in
  let r := transfer_leader group_id new_leader_id current_leader_id s in
  (¬ group_exists d group_id → r = (Raise NotFound, s)) ∧
  (∀ gi g, find_group d group_id = Some (gi, g) →
     (Group.leader_id g ≠ current_leader_id → r = (Raise Forbidden, s)) ∧
     (Group.leader_id g = current_leader_id →
        ¬ member_of d group_id new_leader_id → r = (Raise NotFound, s)) ∧
     (Group.leader_id g = current_leader_id →
        ∀ ni n, find_member d group_id new_leader_id = Some (ni, n) →
        (∀ ci c, find_member d group_id current_leader_id = Some (ci, c) →
           let d' :=
             mkDB (<[gi := Group.set_leader_id new_leader_id g]> (groups d))
                  (alter (GroupMember.set_is_leader true) ni
                     (alter (GroupMember.set_is_leader false) ci
                        (group_members d)))
                  (invites d) (theses d) (informations d) (student_infos d) in
           r = (Return tt, mkSession d' d' (S (commits s))))
        ∧ (¬ member_of d group_id current_leader_id →
           r = (Raise AttributeError, s)))).
Proof.
  intros d r. subst r d. unfold transfer_leader. run.
  fold (find_group (pending s) group_id).
  split.
  - intros Hno. apply find_group_None in Hno. by rewrite Hno.
  - intros gi g Hg. rewrite Hg.
    apply find_group_lookup in Hg as [Hgi _].
    split_and!; intros; repeat case_decide; try done;
      rewrite !find_member_swapped.
    + match goal with H : ¬ member_of _ _ _ |- _ =>
        apply find_member_None in H; by rewrite H end.
    + split.
      * intros ci c Hc. rewrite Hc.
        match goal with H : find_member _ _ _ = Some _ |- _ => rewrite H end.
        by rewrite (alter_found _ _ _ _ Hgi).
      * intros Hc. apply find_member_None in Hc. rewrite Hc.
        match goal with H : find_member _ _ _ = Some _ |- _ =>
          by rewrite H end.
Qed.

(** C10. Transferring the leadership of a group from its leader to that
    same leader, whose membership row is flagged as leader, raises nothing
    and changes no row: the call commits the store it found. *)
Theorem transfer_leader_to_self (group_id leader : UUID) (s : Session)
    (gi : nat) (g : Group.t) :
  find_group (pending s) group_id = Some (gi, g) →
  Group.leader_id g = leader →
  member_of (pending s) group_id leader →
  (∀ m, m ∈ group_members (pending s) →
        GroupMember.group_id m = group_id →
        GroupMember.student_id m = leader →
        GroupMember.is_leader m = true) →
  transfer_leader group_id leader leader s
  = (Return tt, mkSession (pending s) (pending s) (S (commits s))).
Proof.
  intros Hg Hlead Hmem Hflag.
  destruct (list_find_is_Some _ _ Hmem) as (mi & m & Hm).
  fold (find_member (pending s) group_id leader) in Hm.
  destruct (transfer_leader_cases group_id leader leader s) as [_ Hcases].
  destruct (Hcases gi g Hg) as (_ & _ & Hok).
  destruct (Hok Hlead mi m Hm) as [Hdone _].
  rewrite (Hdone mi m Hm). simpl.
  apply find_member_lookup in Hm as (Hmi & Hmg & Hms).
  apply find_group_lookup in Hg as [Hgi _].
  assert (GroupMember.is_leader m = true) as Htrue.
  { apply Hflag; [by eapply list_elem_of_lookup_2|done..]. }
  assert (alter (GroupMember.set_is_leader true) mi
            (alter (GroupMember.set_is_leader false) mi
               (group_members (pending s))) = group_members (pending s))
    as ->.
  { rewrite list_alter_alter_eq, (alter_found _ _ _ _ Hmi). simpl.
    apply insert_same. rewrite Hmi. f_equal.
    destruct m; simpl in *. by subst. }
  assert (<[gi := Group.set_leader_id leader g]> (groups (pending s))
          = groups (pending s)) as ->.
  { apply insert_same. rewrite Hgi. f_equal. destruct g; simpl in *.
    by subst. }
  by destruct (pending s).
Qed.

(** ** Registering a thesis *)

(** C3, as the code has it.  For a group that exists, whose leader calls
    and which has no thesis yet, [register_thesis_for_group] looks the
    thesis up first: it raises NotFound whenever the thesis is absent,
    whether or not a group row references it; it raises Conflict when the
    thesis exists and some group row already references it; otherwise it
    sets the thesis of the group row, sets the status of the thesis row to
    2, and commits. *)
Theorem register_thesis_for_group_checks (group_id thesis_id user_id : UUID)
    (s : Session) (gi : nat) (g : Group.t) :
  find_group (pending s) group_id = Some (gi, g) →
  Group.leader_id g = user_id →
  Group.thesis_id g = None →
  let d := pending s in
  let r := register_thesis_for_group group_id thesis_id user_id s in
  (¬ thesis_exists d thesis_id → r = (Raise NotFound, s)) ∧
  (∀ ti t, find_thesis d thesis_id = Some (ti, t) →
     (thesis_held d thesis_id → r = (Raise Conflict, s)) ∧
     (¬ thesis_held d thesis_id →
        let g' := Group.set_thesis_id (Some thesis_id) g in
        let d' :=
          mkDB (<[gi := g']> (groups d)) (group_members d) (invites d)
               (<[ti := Thesis.set_status 2 t]> (theses d))
               (informations d) (student_infos d) in
        r = (Return g', mkSession d' d' (S (commits s))))).
Proof.
  intros Hg Hlead Hnone d r. subst r d.
  unfold register_thesis_for_group. run.
  fold (find_group (pending s) group_id). rewrite Hg.
  apply find_group_lookup in Hg as [Hgi _].
  repeat case_decide; try done.
  fold (find_thesis (pending s) thesis_id).
  split.
  - intros Hno. apply find_thesis_None in Hno. by rewrite Hno.
  - intros ti t Ht. rewrite Ht. split.
    + intros Hheld. apply thesis_held_find in Hheld.
      by destruct (list_find _ (groups (pending s))) as [[]|].
    + intros Hfree. rewrite thesis_held_find in Hfree.
      destruct (list_find _ (groups (pending s))) as [[]|]; [by destruct Hfree|].
      rewrite (alter_found _ _ _ _ Hgi).
      unfold find_thesis in Ht. apply list_find_Some in Ht as (Hti & _).
      by rewrite (alter_found _ _ _ _ Hti).
Qed.

(** ** Member details *)

Lemma member_detail_is_Some d m :
  is_Some (member_detail d m) ↔
  has_information d (GroupMember.student_id m)
  ∧ has_student_info d (GroupMember.student_id m).
Proof.
  unfold member_detail, has_information, has_student_info.
  destruct (list_find _ (informations d)) as [[i info]|] eqn:Ei;
    [destruct (list_find _ (student_infos d)) as [[j sinfo]|] eqn:Ej|].
  - apply list_find_Some in Ei as (Hi & Hiu & _).
    apply list_find_Some in Ej as (Hj & Hju & _).
    split; [intros _|by eauto].
    split; [exists info|exists sinfo];
      (split; [by eapply list_elem_of_lookup_2|done]).
  - apply list_find_is_None in Ej.
    split; [by intros []|]. tauto.
  - apply list_find_is_None in Ei.
    split; [by intros []|]. tauto.
Qed.

Lemma member_detail_user_id d m x :
  member_detail d m = Some x →
  MemberDetailResponse.user_id x = GroupMember.student_id m
  ∧ MemberDetailResponse.is_leader x = GroupMember.is_leader m.
Proof.
  unfold member_detail. intros H.
  repeat case_match; by simplify_eq/=.
Qed.

(** One round of the member loop reads only, and appends the detail of
    the row when there is one. *)
Lemma member_details_body_detail (x : GroupMember.t)
    (acc : list MemberDetailResponse.t) (s : Session) :
  member_details_body x acc s
  = (Return (acc ++ option_list (member_detail (pending s) x)), s).
Proof.
  unfold member_details_body, member_detail. run.
  destruct (list_find _ (informations (pending s))) as [[i info]|];
    [destruct (list_find _ (student_infos (pending s))) as [[j sinfo]|]|];
    simpl; rewrite ?app_nil_r; try done.
  by rewrite orb_false_r.
Qed.

Lemma omap_cons_option {A B} (f : A → option B) (x : A) (xs : list A) :
  omap f (x :: xs) = option_list (f x) ++ omap f xs.
Proof. simpl. by destruct (f x). Qed.

Lemma member_loop (xs : list GroupMember.t)
    (acc : list MemberDetailResponse.t) (s : Session) :
  for_each xs member_details_body acc s
  = (Return (acc ++ omap (member_detail (pending s)) xs), s).
Proof.
  revert acc. induction xs as [|x xs IH]; intros acc.
  - simpl. unfold mret, M_ret. by rewrite app_nil_r.
  - rewrite omap_cons_option. cbn [for_each]. unfold mbind, M_bind.
    by rewrite member_details_body_detail, IH, <-app_assoc.
Qed.

Lemma group_loop (xs : list GroupMember.t)
    (acc : list GroupWithMembersResponse.t) (s : Session) :
  for_each xs
    (λ membership all_groups_list,
       let group_id := GroupMember.group_id membership in
       group ← query_first groups (λ g, Group.id g = group_id);
       match group with
       | None => mret all_groups_list
       | Some (_, group) =>
           all_members_in_group ←
             query_all group_members (λ m, GroupMember.group_id m = group_id);
           member_details_list ←
             for_each all_members_in_group member_details_body [];
           let group_obj :=
             GroupWithMembersResponse.mk (Group.id group) (Group.name group)
               (Group.leader_id group) member_details_list in
           mret (all_groups_list ++ [group_obj])
       end)
    acc s
  = (Return (acc ++ omap (group_entry (pending s)) xs), s).
Proof.
  revert acc. induction xs as [|x xs IH]; intros acc.
  - simpl. unfold mret, M_ret. by rewrite app_nil_r.
  - rewrite omap_cons_option. cbn [for_each].
    unfold mbind, M_bind at 1. unfold mbind, M_bind at 1.
    unfold query_first at 1. cbn beta iota.
    unfold group_entry at 1. unfold find_group.
    destruct (list_find _ (groups (pending s))) as [[i g]|].
    + unfold mbind, M_bind at 1. unfold query_all at 1. cbn beta iota.
      unfold mbind, M_bind at 1. rewrite member_loop. cbn beta iota.
      unfold mret at 1, M_ret at 1. cbn beta iota.
      rewrite IH. by rewrite <-app_assoc.
    + unfold mret at 1, M_ret at 1. cbn beta iota.
      by rewrite IH.
Qed.

(** C4, as the code has it.  [get_detailed_members_of_group] answers, for a
    group that exists, with the details of its membership rows in order
    (and raises NotFound for a group that is absent), and
    [get_all_groups_for_user] with one entry for every membership row of
    the user whose group row exists.  In both a member is listed exactly
    when both profile rows, Information and StudentInfo, are there; a member
    who lacks either one is left out. *)
Theorem member_details_need_both_profiles (user_id : UUID) (s : Session) :
  let d := pending s in
  (∀ group_id, group_exists d group_id →
     get_detailed_members_of_group group_id s
     = (Return (omap (member_detail d) (members_of_group d group_id)), s))
  ∧ (∀ group_id, ¬ group_exists d group_id →
       get_detailed_members_of_group group_id s = (Raise NotFound, s))
  ∧ get_all_groups_for_user user_id s
    = (Return (omap (group_entry d)
                 (filter (λ m, GroupMember.student_id m = user_id)
                    (group_members d))), s)
  ∧ (∀ group_id m, m ∈ members_of_group d group_id →
       (∃ x, x ∈ omap (member_detail d) (members_of_group d group_id)
             ∧ MemberDetailResponse.user_id x = GroupMember.student_id m)
       ↔ has_information d (GroupMember.student_id m)
         ∧ has_student_info d (GroupMember.student_id m)).
Proof.
  intros d. subst d. split_and!.
  - intros gid Hex. unfold get_detailed_members_of_group. run.
    fold (find_group (pending s) gid).
    destruct (find_group (pending s) gid) as [[gi g]|] eqn:Hg.
    + by rewrite member_loop.
    + by apply find_group_None in Hg.
  - intros gid Hno. apply find_group_None in Hno.
    unfold get_detailed_members_of_group. run.
    fold (find_group (pending s) gid). by rewrite Hno.
  - unfold get_all_groups_for_user. run.
    destruct (filter _ (group_members (pending s))) as [|m ms] eqn:Hms;
      [done|].
    by rewrite group_loop.
  - intros gid m Hm. rewrite <-member_detail_is_Some. split.
    + intros (x & Hx & Hu). apply list_elem_of_omap in Hx as (m' & Hm' & Hd).
      apply member_detail_user_id in Hd as Hu'. destruct Hu' as [Hu' _].
      assert (GroupMember.student_id m' = GroupMember.student_id m) as Heq
        by congruence.
      rewrite member_detail_is_Some, <-Heq, <-member_detail_is_Some. eauto.
    + intros [x Hx]. exists x. split.
      * apply list_elem_of_omap. eauto.
      * by apply member_detail_user_id in Hx as [? _].
Qed.

(** ** Tables with a unique key *)

Section by_key.
Context {A K : Type} `{EqDecision K} (key : A → K).

Lemma unique_key_elem (l : list A) (x y : A) :
  NoDup (key <$> l) → x ∈ l → y ∈ l → key x = key y → x = y.
Proof.
  intros Hnd [i Hi]%list_elem_of_lookup_1 [j Hj]%list_elem_of_lookup_1 Hk.
  assert (i = j) as ->; [|congruence].
  apply (NoDup_lookup (key <$> l) i j (key x)); [done|..].
  - by rewrite list_lookup_fmap, Hi.
  - by rewrite list_lookup_fmap, Hj, Hk.
Qed.

Lemma fmap_id_on (h : A → A) (l : list A) :
  (∀ x, x ∈ l → h x = x) → h <$> l = l.
Proof.
  induction l as [|a l IH]; intros Hid; [done|]. simpl. f_equal.
  - apply Hid. left.
  - apply IH. intros x Hx. apply Hid. by right.
Qed.

(** Updating the row found under a key is updating every row with that
    key. *)
Lemma alter_by_key (f : A → A) (l : list A) (i : nat) (x : A) :
  NoDup (key <$> l) → l !! i = Some x →
  alter f i l = (λ z, if decide (key z = key x) then f z else z) <$> l.
Proof.
  revert i. induction l as [|a l IH]; intros i Hnd Hi; [done|].
  rewrite fmap_cons in Hnd. apply NoDup_cons in Hnd as [Hnotin Hnd].
  destruct i as [|i]; simpl in *.
  - simplify_eq. rewrite decide_True by done. f_equal.
    symmetry. apply fmap_id_on. intros z Hz.
    rewrite decide_False; [done|]. intros Hk. apply Hnotin.
    rewrite <-Hk. by apply list_elem_of_fmap_2.
  - rewrite decide_False.
    + f_equal. by apply IH.
    + intros Hk. apply Hnotin. rewrite Hk.
      apply list_elem_of_fmap_2. by eapply list_elem_of_lookup_2.
Qed.

(** Deleting the row found under a key is deleting every row with that
    key. *)
Lemma delete_by_key (l : list A) (i : nat) (x : A) :
  NoDup (key <$> l) → l !! i = Some x →
  delete i l = filter (λ z, key z ≠ key x) l.
Proof.
  revert i. induction l as [|a l IH]; intros i Hnd Hi; [done|].
  rewrite fmap_cons in Hnd. apply NoDup_cons in Hnd as [Hnotin Hnd].
  destruct i as [|i]; simpl in *.
  - simplify_eq. rewrite filter_cons_False by (intros Hne; by apply Hne).
    symmetry. clear IH Hnd. induction l as [|b l IHl]; [done|].
    rewrite filter_cons_True.
    + f_equal. apply IHl. intros Hin. apply Hnotin. by right.
    + intros Hk. apply Hnotin. rewrite <-Hk. left.
  - rewrite filter_cons_True.
    + f_equal. by apply IH.
    + intros Hk. apply Hnotin. rewrite Hk.
      apply list_elem_of_fmap_2. by eapply list_elem_of_lookup_2.
Qed.

Lemma NoDup_key_fmap (h : A → A) (l : list A) :
  (∀ x, key (h x) = key x) → NoDup (key <$> l) → NoDup (key <$> (h <$> l)).
Proof.
  intros Hh Hnd. rewrite <-list_fmap_compose.
  by rewrite (list_fmap_ext (key ∘ h) key l) by (intros; apply Hh).
Qed.

Lemma NoDup_key_filter (P : A → Prop) `{∀ x, Decision (P x)} (l : list A) :
  NoDup (key <$> l) → NoDup (key <$> filter P l).
Proof.
  intros Hnd. eapply sublist_NoDup; [exact Hnd|].
  apply fmap_sublist, sublist_filter.
Qed.

Lemma NoDup_key_snoc (l : list A) (x : A) :
  NoDup (key <$> l) → (∀ y, y ∈ l → key y ≠ key x) →
  NoDup (key <$> (l ++ [x])).
Proof.
  intros Hnd Hfresh. rewrite fmap_app. apply NoDup_app. split_and!.
  - done.
  - intros k [y [-> Hy]]%list_elem_of_fmap Hin.
    apply list_elem_of_singleton in Hin. by apply (Hfresh y).
  - apply NoDup_singleton.
Qed.
End by_key.

(** ** Counting rows *)

Section counting.
Context {A : Type} (P : A → Prop) `{∀ x, Decision (P x)}.

Lemma length_filter_fmap (h : A → A) (l : list A) :
  (∀ x, P (h x) ↔ P x) →
  length (filter P (h <$> l)) = length (filter P l).
Proof.
  intros Hh. induction l as [|a l IH]; [done|].
  rewrite fmap_cons, !filter_cons.
  destruct (decide (P (h a))) as [Hy|Hn], (decide (P a)) as [Hy'|Hn'];
    simpl; rewrite ?IH; try done; exfalso; specialize (Hh a); tauto.
Qed.

Lemma length_filter_snoc (l : list A) (x : A) :
  length (filter P (l ++ [x]))
  = (length (filter P l) + (if decide (P x) then 1 else 0))%nat.
Proof.
  rewrite filter_app, length_app. f_equal.
  rewrite filter_cons, filter_nil. by destruct (decide (P x)).
Qed.

Lemma length_filter_delete (l : list A) (i : nat) (x : A) :
  l !! i = Some x →
  length (filter P l)
  = (length (filter P (delete i l)) + (if decide (P x) then 1 else 0))%nat.
Proof.
  revert i. induction l as [|a l IH]; intros i Hi; [done|].
  destruct i as [|i]; simpl in *.
  - simplify_eq. rewrite filter_cons.
    destruct (decide (P x)); simpl; lia.
  - rewrite !filter_cons. specialize (IH i Hi).
    destruct (decide (P a)); simpl; lia.
Qed.

Lemma filter_none (l : list A) :
  (∀ x, x ∈ l → ¬ P x) → filter P l = [].
Proof.
  intros Hno. induction l as [|a l IH]; [done|].
  rewrite filter_cons_False.
  - apply IH. intros x Hx. apply Hno. by right.
  - apply Hno. left.
Qed.

Lemma filter_filter_same (Q : A → Prop) `{∀ x, Decision (Q x)}
    (l : list A) :
  (∀ x, P x → Q x) → filter P (filter Q l) = filter P l.
Proof.
  intros HPQ. induction l as [|a l IH]; [done|].
  rewrite (filter_cons Q).
  destruct (decide (Q a)) as [Hq|Hq].
  - rewrite !filter_cons. rewrite IH. done.
  - rewrite IH, (filter_cons_False P); [done|]. intros HP. by apply Hq, HPQ.
Qed.

(** In a table with a unique key, one row that satisfies the filter and
    carries the key of every row that does is the whole answer. *)
Lemma filter_the_one {K} `{EqDecision K} (key : A → K) (l : list A)
    (x : A) :
  NoDup (key <$> l) → x ∈ l → P x → (∀ y, y ∈ l → P y → key y = key x) →
  filter P l = [x].
Proof.
  induction l as [|a l IH]; intros Hnd Hx HP Hall.
  - by apply elem_of_nil in Hx.
  - rewrite fmap_cons in Hnd. apply NoDup_cons in Hnd as [Hnotin Hnd].
    apply elem_of_cons in Hx as [->|Hx].
    + rewrite filter_cons_True by done. f_equal.
      apply filter_none. intros y Hy HPy. apply Hnotin.
      rewrite <-(Hall y); [by apply list_elem_of_fmap_2|by right|done].
    + rewrite filter_cons_False.
      * apply IH; [done..|]. intros y Hy. apply Hall. by right.
      * intros HPa. apply Hnotin. rewrite (Hall a); [|left|done].
        by apply list_elem_of_fmap_2.
Qed.
End counting.

(** ** Calls that return *)

Ltac close_returns :=
  repeat match goal with
    | H : list_find _ _ = _ |- _ => rewrite find_member_swapped in H
    end;
  repeat match goal with
    | H : decide _ = _ |- _ => clear H
    | H : bool_decide _ = false |- _ => apply bool_decide_eq_false in H
    | H : ¬ (_ ≠ _) |- _ => apply dec_stable in H
    end;
  repeat eexists;
  split_and?;
  try eassumption; try done; try lia;
  rewrite ?in_any_group_find, ?thesis_held_find; try congruence.

Lemma run_call_returns (c : call) (d d' : DB) :
  run_call c d = (Return tt, d') → returns_with c d d'.
Proof.
  unfold run_call.
  destruct c; simpl;
    unfold create_group, add_member, is_member_of_any_group, remove_member,
      transfer_leader, update_group_name, delete_group,
      register_thesis_for_group;
    run; rewrite ?find_member_swapped;
    repeat (case_match; simplify_eq/=; try done); intros ?; simplify_eq;
    close_returns.
Qed.

(** ** The data model is preserved *)

Ltac unfold_wf :=
  unfold well_formed, keys_consistent, quantity_is_member_count,
    one_group_per_student, leader_rows_consistent, group_exists,
    in_any_group, member_count, members_of_group in *.

Lemma elem_of_snoc {A} (l : list A) (x y : A) :
  y ∈ l ++ [x] ↔ y ∈ l ∨ y = x.
Proof. rewrite elem_of_app, list_elem_of_singleton. tauto. Qed.

(** An update of group rows that keeps id, leader and quantity. *)
Lemma wf_update_groups (h : Group.t → Group.t) (d d' : DB) :
  (∀ z, Group.id (h z) = Group.id z) →
  (∀ z, Group.leader_id (h z) = Group.leader_id z) →
  (∀ z, Group.quantity (h z) = Group.quantity z) →
  groups d' = h <$> groups d →
  group_members d' = group_members d →
  well_formed d → well_formed d'.
Proof.
  intros Hid Hl Hq HG HM ([K1 K2] & Q & S & [L1 L2]).
  unfold_wf. rewrite HG, HM. split_and!.
  - by apply NoDup_key_fmap.
  - intros m Hm. destruct (K2 m Hm) as (g & Hg & Hgid).
    exists (h g). split; [by apply list_elem_of_fmap_2|by rewrite Hid].
  - intros g' [z [-> Hz]]%list_elem_of_fmap. rewrite Hq, Hid. by apply Q.
  - done.
  - intros g' [z [-> Hz]]%list_elem_of_fmap. rewrite Hid, Hl. by apply L1.
  - intros m g' Hm [z [-> Hz]]%list_elem_of_fmap. rewrite Hid, Hl.
    by apply L2.
Qed.

Lemma wf_create_group (group : GroupCreate.t) (user_id new_id : UUID)
    (d d' : DB) :
  ¬ group_exists d new_id →
  returns_with (CreateGroup group user_id new_id) d d' →
  well_formed d → well_formed d'.
Proof.
  intros Hfresh [Hfree ->] ([K1 K2] & Q & S & [L1 L2]).
  unfold_wf. simpl. split_and!.
  - apply NoDup_key_snoc; [done|]. simpl. intros y Hy Hid.
    apply Hfresh. by exists y.
  - intros m [Hm| ->]%elem_of_snoc.
    + destruct (K2 m Hm) as (g & Hg & Hgid). exists g.
      split; [|done]. apply elem_of_snoc. by left.
    + eexists. split; [apply elem_of_snoc; by right|done].
  - intros g [Hg| ->]%elem_of_snoc.
    + rewrite length_filter_snoc. simpl.
      rewrite decide_False; [rewrite Nat.add_0_r; by apply Q|].
      intros Hid. apply Hfresh. by exists g.
    + simpl. rewrite length_filter_snoc. simpl.
      rewrite decide_True by done. rewrite filter_none; [done|].
      intros m Hm Hid. apply Hfresh. rewrite <-Hid. by apply K2.
  - apply NoDup_key_snoc; [done|]. simpl. intros y Hy Hid.
    apply Hfree. by exists y.
  - intros g [Hg| ->]%elem_of_snoc.
    + destruct (L1 g Hg) as (m & Hm & Hrest). exists m.
      split; [|done]. apply elem_of_snoc. by left.
    + eexists. split; [apply elem_of_snoc; by right|done].
  - intros m g [Hm| ->]%elem_of_snoc [Hg| ->]%elem_of_snoc; simpl.
    + by apply L2.
    + intros Hid. destruct Hfresh. rewrite <-Hid. by apply K2.
    + intros Hid. destruct Hfresh. by exists g.
    + done.
Qed.

Lemma alter_group (f : Group.t → Group.t) (d : DB) (gid : UUID) (gi : nat)
    (g : Group.t) :
  NoDup (Group.id <$> groups d) → find_group d gid = Some (gi, g) →
  alter f gi (groups d)
  = (λ z, if decide (Group.id z = gid) then f z else z) <$> groups d.
Proof.
  intros Hnd [Hgi <-]%find_group_lookup. by apply alter_by_key.
Qed.

Lemma wf_add_member (group_id : UUID) (member : GroupMemberCreate.t)
    (leader_id : UUID) (d d' : DB) :
  returns_with (AddMember group_id member leader_id) d d' →
  well_formed d → well_formed d'.
Proof.
  intros (gi & g & Hg & Hlead & Hq & Hfree & ->) ([K1 K2] & Q & S & [L1 L2]).
  rewrite (alter_group _ _ _ _ _ K1 Hg).
  apply find_group_elem in Hg as [Hgin Hgid].
  set (hG := λ z : Group.t, if decide (Group.id z = group_id)
               then Group.set_quantity (Group.quantity z + 1) z else z).
  assert (∀ z, Group.id (hG z) = Group.id z) as Hid.
  { intros z. unfold hG. by case_decide. }
  assert (∀ z, Group.leader_id (hG z) = Group.leader_id z) as Hl.
  { intros z. unfold hG. by case_decide. }
  unfold_wf. simpl. split_and!.
  - by apply NoDup_key_fmap.
  - intros m [Hm| ->]%elem_of_snoc.
    + destruct (K2 m Hm) as (z & Hz & Hzid). exists (hG z).
      split; [by apply list_elem_of_fmap_2|by rewrite Hid].
    + exists (hG g). split; [by apply list_elem_of_fmap_2|by rewrite Hid].
  - intros g' [z [-> Hz]]%list_elem_of_fmap.
    rewrite Hid, length_filter_snoc. simpl. specialize (Q z Hz).
    unfold hG. destruct (decide (Group.id z = group_id)) as [Heq|Hne].
    + rewrite decide_True by done. simpl. lia.
    + rewrite decide_False by done. rewrite Nat.add_0_r. done.
  - apply NoDup_key_snoc; [done|]. simpl. intros y Hy Hs.
    apply Hfree. by exists y.
  - intros g' [z [-> Hz]]%list_elem_of_fmap. rewrite Hid, Hl.
    destruct (L1 z Hz) as (m & Hm & Hrest). exists m.
    split; [|done]. apply elem_of_snoc. by left.
  - intros m g' [Hm| ->]%elem_of_snoc [z [-> Hz]]%list_elem_of_fmap;
      rewrite Hid, Hl; [by apply L2|done].
Qed.

Lemma wf_remove_member (group_id member_id leader_id : UUID) (d d' : DB) :
  returns_with (RemoveMember group_id member_id leader_id) d d' →
  well_formed d → well_formed d'.
Proof.
  intros (gi & g & mi & m & Hg & Hlead & Hne & Hm & ->)
         ([K1 K2] & Q & S & [L1 L2]).
  rewrite (alter_group _ _ _ _ _ K1 Hg).
  apply find_group_elem in Hg as [Hgin Hgid].
  apply find_member_lookup in Hm as (Hmi & Hmg & Hms).
  assert (m ∈ group_members d) as Hmin by by eapply list_elem_of_lookup_2.
  set (hG := λ z : Group.t, if decide (Group.id z = group_id)
               then Group.set_quantity (Group.quantity z - 1) z else z).
  assert (∀ z, Group.id (hG z) = Group.id z) as Hid.
  { intros z. unfold hG. by case_decide. }
  assert (∀ z, Group.leader_id (hG z) = Group.leader_id z) as Hl.
  { intros z. unfold hG. by case_decide. }
  assert (∀ x, x ∈ delete mi (group_members d) ↔
               x ∈ group_members d ∧ GroupMember.student_id x ≠ member_id)
    as Hdel.
  { intros x. rewrite (delete_by_key GroupMember.student_id _ _ _ S Hmi).
    rewrite list_elem_of_filter, Hms. tauto. }
  unfold_wf. simpl. split_and!.
  - by apply NoDup_key_fmap.
  - intros x [Hx _]%Hdel.
    destruct (K2 x Hx) as (z & Hz & Hzid). exists (hG z).
    split; [by apply list_elem_of_fmap_2|by rewrite Hid].
  - intros g' [z [-> Hz]]%list_elem_of_fmap. rewrite Hid.
    specialize (Q z Hz).
    rewrite (length_filter_delete _ _ _ _ Hmi) in Q. rewrite Hmg in Q.
    unfold hG. destruct (decide (Group.id z = group_id)) as [Heq|Hneq].
    + rewrite decide_True in Q by done. simpl. lia.
    + rewrite decide_False in Q by done. rewrite Nat.add_0_r in Q. done.
  - rewrite list_fmap_delete. eapply sublist_NoDup; [exact S|].
    apply sublist_delete.
  - intros g' [z [-> Hz]]%list_elem_of_fmap. rewrite Hid, Hl.
    destruct (L1 z Hz) as (x & Hx & Hxg & Hxs & Hxl). exists x.
    split; [|done]. apply Hdel. split; [done|]. intros Hxm.
    assert (x = m) as ->.
    { apply (unique_key_elem GroupMember.student_id (group_members d));
        [done..|congruence]. }
    assert (z = g) as ->.
    { apply (unique_key_elem Group.id (groups d)); [done..|congruence]. }
    congruence.
  - intros x g' [Hx _]%Hdel [z [-> Hz]]%list_elem_of_fmap.
    rewrite Hid, Hl. by apply L2.
Qed.

Lemma flip_leader_keys new cur m :
  GroupMember.student_id (flip_leader new cur m) = GroupMember.student_id m
  ∧ GroupMember.group_id (flip_leader new cur m) = GroupMember.group_id m.
Proof. unfold flip_leader. by repeat case_decide. Qed.

Lemma flip_leader_flag new cur m :
  GroupMember.is_leader (flip_leader new cur m)
  = if decide (GroupMember.student_id m = new) then true
    else if decide (GroupMember.student_id m = cur) then false
    else GroupMember.is_leader m.
Proof.
  unfold flip_leader.
  destruct (decide (GroupMember.student_id m = cur));
    simpl; by repeat case_decide.
Qed.

Lemma flip_leader_other new cur m :
  GroupMember.student_id m ≠ new → GroupMember.student_id m ≠ cur →
  flip_leader new cur m = m.
Proof.
  intros Hn Hc. unfold flip_leader. cbv zeta.
  rewrite (decide_False (P := GroupMember.student_id m = cur)) by done.
  by rewrite decide_False.
Qed.

Lemma alter_flip_leader (d : DB) (gid new cur : UUID) (ci ni : nat)
    (c n : GroupMember.t) :
  NoDup (GroupMember.student_id <$> group_members d) →
  find_member d gid cur = Some (ci, c) →
  find_member d gid new = Some (ni, n) →
  alter (GroupMember.set_is_leader true) ni
    (alter (GroupMember.set_is_leader false) ci (group_members d))
  = flip_leader new cur <$> group_members d.
Proof.
  intros S (Hci & _ & Hcs)%find_member_lookup
           (Hni & _ & Hns)%find_member_lookup.
  rewrite (alter_by_key GroupMember.student_id _ _ _ _ S Hci).
  set (h1 := λ z : GroupMember.t,
         if decide (GroupMember.student_id z = GroupMember.student_id c)
         then GroupMember.set_is_leader false z else z).
  assert (∀ z, GroupMember.student_id (h1 z) = GroupMember.student_id z)
    as Hh1.
  { intros z. unfold h1. by case_decide. }
  assert ((h1 <$> group_members d) !! ni = Some (h1 n)) as Hni'.
  { by rewrite list_lookup_fmap, Hni. }
  rewrite (alter_by_key GroupMember.student_id _ _ _ _
             (NoDup_key_fmap _ _ _ Hh1 S) Hni').
  rewrite <-list_fmap_compose. apply list_fmap_ext. intros i x _. simpl.
  rewrite !Hh1, Hns. unfold flip_leader, h1. rewrite Hcs.
  by destruct (decide (GroupMember.student_id x = cur)).
Qed.

Lemma wf_transfer_leader (group_id new_leader_id current_leader_id : UUID)
    (d d' : DB) :
  returns_with (TransferLeader group_id new_leader_id current_leader_id) d d' →
  well_formed d → well_formed d'.
Proof.
  intros (gi & g & ci & c & ni & n & Hg & Hlead & Hc & Hn & ->)
         ([K1 K2] & Q & S & [L1 L2]).
  rewrite (alter_group _ _ _ _ _ K1 Hg).
  rewrite (alter_flip_leader _ _ _ _ _ _ _ _ S Hc Hn).
  apply find_group_elem in Hg as [Hgin Hgid].
  apply find_member_lookup in Hc as (Hci & Hcg & Hcs).
  apply find_member_lookup in Hn as (Hni & Hng & Hns).
  assert (c ∈ group_members d) as Hcin by by eapply list_elem_of_lookup_2.
  assert (n ∈ group_members d) as Hnin by by eapply list_elem_of_lookup_2.
  set (hG := λ z : Group.t, if decide (Group.id z = group_id)
               then Group.set_leader_id new_leader_id z else z).
  set (h := flip_leader new_leader_id current_leader_id).
  assert (∀ z, Group.id (hG z) = Group.id z) as Hid.
  { intros z. unfold hG. by case_decide. }
  assert (∀ z, Group.quantity (hG z) = Group.quantity z) as Hq.
  { intros z. unfold hG. by case_decide. }
  assert (∀ x, GroupMember.student_id (h x) = GroupMember.student_id x) as Hhs.
  { intros x. apply flip_leader_keys. }
  assert (∀ x, GroupMember.group_id (h x) = GroupMember.group_id x) as Hhg.
  { intros x. apply flip_leader_keys. }
  assert (∀ x, x ∈ group_members d →
               GroupMember.student_id x = new_leader_id → x = n) as Hisn.
  { intros x Hx Hxs.
    apply (unique_key_elem GroupMember.student_id (group_members d));
      [done..|congruence]. }
  assert (∀ x, x ∈ group_members d →
               GroupMember.student_id x = current_leader_id → x = c) as Hisc.
  { intros x Hx Hxs.
    apply (unique_key_elem GroupMember.student_id (group_members d));
      [done..|congruence]. }
  assert (∀ z, z ∈ groups d → Group.id z = group_id → z = g) as Hisg.
  { intros z Hz Hzid.
    apply (unique_key_elem Group.id (groups d)); [done..|congruence]. }
  unfold_wf. simpl. split_and!.
  - by apply NoDup_key_fmap.
  - intros m' [x [-> Hx]]%list_elem_of_fmap. rewrite Hhg.
    destruct (K2 x Hx) as (z & Hz & Hzid). exists (hG z).
    split; [by apply list_elem_of_fmap_2|by rewrite Hid].
  - intros g' [z [-> Hz]]%list_elem_of_fmap. rewrite Hid, Hq.
    rewrite length_filter_fmap; [by apply Q|].
    intros x. by rewrite Hhg.
  - by apply NoDup_key_fmap.
  - intros g' [z [-> Hz]]%list_elem_of_fmap. rewrite Hid.
    unfold hG. destruct (decide (Group.id z = group_id)) as [Heq|Hneq].
    + exists (h n). split_and!.
      * by apply list_elem_of_fmap_2.
      * rewrite Hhg. congruence.
      * by rewrite Hhs.
      * unfold h. rewrite flip_leader_flag. by rewrite decide_True.
    + destruct (L1 z Hz) as (x & Hx & Hxg & Hxs & Hxl).
      exists (h x). unfold h. rewrite flip_leader_other.
      * split_and!; [|done..]. apply list_elem_of_fmap.
        exists x. split; [|done]. symmetry. apply flip_leader_other.
        -- intros Hxn. apply Hneq. rewrite <-Hxg, (Hisn x Hx Hxn). done.
        -- intros Hxc. apply Hneq. rewrite <-Hxg, (Hisc x Hx Hxc). done.
      * intros Hxn. apply Hneq. rewrite <-Hxg, (Hisn x Hx Hxn). done.
      * intros Hxc. apply Hneq. rewrite <-Hxg, (Hisc x Hx Hxc). done.
  - intros m' g' [x [-> Hx]]%list_elem_of_fmap [z [-> Hz]]%list_elem_of_fmap.
    rewrite Hhg, Hhs, Hid. unfold h. rewrite flip_leader_flag.
    intros Hxz. unfold hG.
    destruct (decide (GroupMember.student_id x = new_leader_id)) as [Hxn|Hxn].
    + intros _. rewrite decide_True; [done|].
      rewrite <-Hxz, (Hisn x Hx Hxn). done.
    + destruct (decide (GroupMember.student_id x = current_leader_id))
        as [Hxc|Hxc]; [done|].
      intros Hflag. specialize (L2 x z Hx Hz Hxz Hflag).
      rewrite decide_False; [done|]. intros Hzid.
      apply Hxc. rewrite L2, (Hisg z Hz Hzid). done.
Qed.

Lemma wf_delete_group (group_id user_id : UUID) (d d' : DB) :
  returns_with (DeleteGroup group_id user_id) d d' →
  well_formed d → well_formed d'.
Proof.
  intros (gi & g & Hg & Hlead & Hthesis & ->) ([K1 K2] & Q & S & [L1 L2]).
  apply find_group_lookup in Hg as [Hgi Hgid].
  assert (∀ z, z ∈ delete gi (groups d) ↔
               z ∈ groups d ∧ Group.id z ≠ group_id) as Hdel.
  { intros z. rewrite (delete_by_key Group.id _ _ _ K1 Hgi).
    rewrite list_elem_of_filter, Hgid. tauto. }
  unfold_wf. simpl. split_and!.
  - rewrite (delete_by_key Group.id _ _ _ K1 Hgi).
    by apply NoDup_key_filter.
  - intros m [Hmg Hm]%list_elem_of_filter.
    destruct (K2 m Hm) as (z & Hz & Hzid). exists z.
    split; [|done]. apply Hdel. split; [done|congruence].
  - intros z [Hz Hzid]%Hdel.
    rewrite filter_filter_same; [by apply Q|].
    intros x. simpl. congruence.
  - by apply NoDup_key_filter.
  - intros z [Hz Hzid]%Hdel.
    destruct (L1 z Hz) as (x & Hx & Hxg & Hrest). exists x.
    split; [|done]. apply list_elem_of_filter. split; [congruence|done].
  - intros x z [_ Hx]%list_elem_of_filter [Hz _]%Hdel. by apply L2.
Qed.

Lemma wf_update_group_name (group_id : UUID) (new_name : string)
    (user_id : UUID) (d d' : DB) :
  returns_with (UpdateGroupName group_id new_name user_id) d d' →
  well_formed d → well_formed d'.
Proof.
  intros (gi & g & Hg & Hlead & ->) Hwf.
  pose proof Hwf as ([K1 _] & _).
  rewrite (alter_group _ _ _ _ _ K1 Hg).
  eapply (wf_update_groups
            (λ z, if decide (Group.id z = group_id)
                  then Group.set_name new_name z else z));
    [intros z; by case_decide..|done|done|exact Hwf].
Qed.

Lemma wf_register_thesis_for_group (group_id thesis_id user_id : UUID)
    (d d' : DB) :
  returns_with (RegisterThesisForGroup group_id thesis_id user_id) d d' →
  well_formed d → well_formed d'.
Proof.
  intros (gi & g & ti & t & Hg & Hlead & Hnone & Ht & Hfree & ->) Hwf.
  pose proof Hwf as ([K1 _] & _).
  rewrite (alter_group _ _ _ _ _ K1 Hg).
  eapply (wf_update_groups
            (λ z, if decide (Group.id z = group_id)
                  then Group.set_thesis_id (Some thesis_id) z else z));
    [intros z; by case_decide..|done|done|exact Hwf].
Qed.

(** Every call that returns keeps the data model. *)
Lemma step_well_formed (d d' : DB) :
  well_formed d → step d d' → well_formed d'.
Proof.
  intros Hwf [c d'' Hfresh Hrun]. apply run_call_returns in Hrun.
  destruct c; simpl in Hfresh.
  - by eapply wf_create_group.
  - by eapply wf_add_member.
  - by eapply wf_remove_member.
  - by eapply wf_transfer_leader.
  - by eapply wf_update_group_name.
  - by eapply wf_delete_group.
  - by eapply wf_register_thesis_for_group.
Qed.

Lemma initial_well_formed (d : DB) : initial d → well_formed d.
Proof.
  intros [HG HM]. unfold_wf. rewrite HG, HM. split_and!.
  - apply NoDup_nil_2.
  - intros m Hm. by apply elem_of_nil in Hm.
  - intros g Hg. by apply elem_of_nil in Hg.
  - apply NoDup_nil_2.
  - intros g Hg. by apply elem_of_nil in Hg.
  - intros m g Hm. by apply elem_of_nil in Hm.
Qed.

Lemma reachable_well_formed (d : DB) : reachable d → well_formed d.
Proof.
  induction 1 as [d Hinit|d d' _ IH Hstep].
  - by apply initial_well_formed.
  - by eapply step_well_formed.
Qed.

(** In a well-formed store the flagged rows of a group are exactly the one
    row of its leader. *)
Lemma well_formed_one_leader (d : DB) :
  well_formed d → one_leader_per_group d.
Proof.
  intros ([K1 K2] & Q & S & [L1 L2]) g Hg.
  destruct (L1 g Hg) as (m & Hm & Hmg & Hms & Hml).
  exists m. split; [|done]. unfold leaders_of_group.
  apply (filter_the_one _ GroupMember.student_id); [done..|].
  intros y Hy [Hyg Hyl]. rewrite Hms. by apply L2.
Qed.

(** ** The invariants on reachable stores *)

Lemma step_reachable (c : call) (d d' : DB) :
  reachable d → key_is_fresh d c → run_call c d = (Return tt, d') →
  reachable d'.
Proof. intros Hd Hfresh Hrun. eapply reachable_step; [done|]. by econstructor. Qed.

(** C5. In every reachable store the quantity of every group row is the
    number of membership rows that carry its id, so every operation that
    returns keeps it that way; a created group starts with quantity 1 and
    one membership row. *)
Theorem quantity_is_live_member_count (d : DB) :
  reachable d →
  quantity_is_member_count d
  ∧ (∀ c d', key_is_fresh d c → run_call c d = (Return tt, d') →
       quantity_is_member_count d')
  ∧ (∀ group user_id new_id d',
       ¬ group_exists d new_id →
       run_call (CreateGroup group user_id new_id) d = (Return tt, d') →
       groups d'
       = groups d ++ [Group.mk new_id (GroupCreate.name group) user_id 1 None]
       ∧ members_of_group d' new_id = [GroupMember.mk new_id user_id true]
       ∧ member_count d' new_id = 1).
Proof.
  intros Hd. split_and!.
  - by apply reachable_well_formed.
  - intros c d' Hfresh Hrun.
    by eapply reachable_well_formed, step_reachable.
  - intros [name] u i d' Hfresh Hrun.
    apply run_call_returns in Hrun as [_ ->]. simpl.
    assert (members_of_group
              (mkDB (groups d ++ [Group.mk i name u 1 None])
                    (group_members d ++ [GroupMember.mk i u true])
                    (invites d) (theses d) (informations d) (student_infos d))
              i = [GroupMember.mk i u true]) as Hrows.
    { unfold members_of_group. simpl. rewrite filter_app.
      rewrite filter_none.
      - by rewrite filter_cons_True.
      - intros m Hm Hmi. apply Hfresh. rewrite <-Hmi.
        by apply (reachable_well_formed d Hd). }
    split_and!; [done..|].
    unfold member_count. by rewrite Hrows.
Qed.

(** What [add_member] answers for a student who is in a group already. *)
Lemma add_member_taken (group_id : UUID) (member : GroupMemberCreate.t)
    (leader_id : UUID) (s : Session) :
  in_any_group (pending s) (GroupMemberCreate.student_id member) →
  add_member group_id member leader_id s
  = (Raise (match find_group (pending s) group_id with
            | None => NotFound
            | Some (_, g) =>
                if decide (Group.leader_id g = leader_id) then Conflict
                else Forbidden
            end), s).
Proof.
  intros Htaken. apply in_any_group_find in Htaken.
  unfold add_member, is_member_of_any_group. run.
  fold (find_group (pending s) group_id).
  destruct (find_group (pending s) group_id) as [[gi g]|]; [|done].
  repeat case_decide; try done.
  by rewrite bool_decide_eq_true_2.
Qed.

Lemma create_group_taken (group : GroupCreate.t) (user_id new_id : UUID)
    (s : Session) :
  in_any_group (pending s) user_id →
  create_group group user_id new_id s = (Raise Conflict, s).
Proof.
  intros Htaken. apply in_any_group_find in Htaken.
  unfold create_group. run.
  by destruct (list_find _ (group_members (pending s))) as [[]|].
Qed.

(** C6, as the code has it.  In every reachable store no two membership
    rows carry the same student, and every operation that returns keeps it
    that way.  [create_group] raises Conflict for a caller who is in a
    group.  [add_member] always raises for a student who is in a group:
    NotFound when the group is absent, Forbidden when the caller is not its
    leader, and Conflict otherwise. *)
Theorem student_in_at_most_one_group :
  (∀ d, reachable d →
     one_group_per_student d
     ∧ (∀ m1 m2, m1 ∈ group_members d → m2 ∈ group_members d →
          GroupMember.student_id m1 = GroupMember.student_id m2 → m1 = m2)
     ∧ (∀ c d', key_is_fresh d c → run_call c d = (Return tt, d') →
          one_group_per_student d'))
  ∧ (∀ s group user_id new_id,
       in_any_group (pending s) user_id →
       create_group group user_id new_id s = (Raise Conflict, s))
  ∧ (∀ s group_id member leader_id,
       in_any_group (pending s) (GroupMemberCreate.student_id member) →
       (¬ group_exists (pending s) group_id →
          add_member group_id member leader_id s = (Raise NotFound, s))
       ∧ (∀ gi g, find_group (pending s) group_id = Some (gi, g) →
            (Group.leader_id g ≠ leader_id →
               add_member group_id member leader_id s
               = (Raise Forbidden, s))
            ∧ (Group.leader_id g = leader_id →
                 add_member group_id member leader_id s
                 = (Raise Conflict, s)))).
Proof.
  split_and!.
  - intros d Hd.
    pose proof (reachable_well_formed d Hd) as (_ & _ & S & _).
    split_and!; [done| |].
    + intros m1 m2. by apply unique_key_elem.
    + intros c d' Hfresh Hrun.
      by eapply reachable_well_formed, step_reachable.
  - intros s name u i. apply create_group_taken.
  - intros s gid sid lid Htaken. rewrite add_member_taken by done. split.
    + intros Hno. apply find_group_None in Hno. by rewrite Hno.
    + intros gi g Hg. rewrite Hg. split; intros Hlead.
      * by rewrite decide_False.
      * by rewrite decide_True.
Qed.

(** C7. In every reachable store each group has exactly one membership row
    flagged as leader, and that row is the one of the group's leader; this
    holds after [create_group] and after every [transfer_leader] that
    returns.  On such a store [transfer_leader] raises NotFound for a group
    that is absent, Forbidden for a caller who is not the leader, NotFound
    for a new leader who has no row in the group; otherwise it clears the
    flag of the caller's row, sets the flag of the new leader's row, makes
    the new leader the leader of the group row, and commits. *)
Theorem one_leader_after_transfer (d : DB) :
  reachable d →
  one_leader_per_group d
  ∧ ∀ group_id new_leader_id current_leader_id,
      let s := open_session d in
      let r := transfer_leader group_id new_leader_id current_leader_id s in
      (¬ group_exists d group_id → r = (Raise NotFound, s)) ∧
      (∀ gi g, find_group d group_id = Some (gi, g) →
         (Group.leader_id g ≠ current_leader_id →
            r = (Raise Forbidden, s)) ∧
         (Group.leader_id g = current_leader_id →
            ¬ member_of d group_id new_leader_id →
            r = (Raise NotFound, s)) ∧
         (Group.leader_id g = current_leader_id →
            member_of d group_id new_leader_id →
            ∃ ci c ni n d',
              find_member d group_id current_leader_id = Some (ci, c)
              ∧ find_member d group_id new_leader_id = Some (ni, n)
              ∧ d' = mkDB
                       (<[gi := Group.set_leader_id new_leader_id g]>
                          (groups d))
                       (alter (GroupMember.set_is_leader true) ni
                          (alter (GroupMember.set_is_leader false) ci
                             (group_members d)))
                       (invites d) (theses d) (informations d)
                       (student_infos d)
              ∧ r = (Return tt, mkSession d' d' 1)
              ∧ one_leader_per_group d'
              ∧ leaders_of_group d' group_id
                = [GroupMember.set_is_leader true n])).
Proof.
  intros Hd. pose proof (reachable_well_formed d Hd) as Hwf.
  split; [by apply well_formed_one_leader|].
  intros gid new cur s r. subst r.
  destruct (transfer_leader_cases gid new cur s) as [Habsent Hcases].
  split; [exact Habsent|].
  intros gi g Hg. destruct (Hcases gi g Hg) as (Hforb & Hnf & Hok).
  split_and!; [exact Hforb|exact Hnf|].
  intros Hlead Hmem.
  destruct (list_find_is_Some _ _ Hmem) as (ni & n & Hn).
  fold (find_member d gid new) in Hn.
  assert (member_of d gid cur) as Hcur.
  { destruct Hwf as (_ & _ & _ & [L1 _]).
    apply find_group_elem in Hg as [Hgin Hgid].
    destruct (L1 g Hgin) as (m & Hm & Hmg & Hms & _).
    exists m. split_and!; congruence. }
  destruct (list_find_is_Some _ _ Hcur) as (ci & c & Hc).
  fold (find_member d gid cur) in Hc.
  destruct (Hok Hlead ni n Hn) as [Hrun _]. specialize (Hrun ci c Hc).
  simpl in Hrun.
  apply find_group_lookup in Hg as Hgl. destruct Hgl as [Hgi Hgid].
  apply find_member_lookup in Hn as Hnl. destruct Hnl as (Hni & Hng & Hns).
  set (d' := mkDB (<[gi := Group.set_leader_id new g]> (groups d))
                  (alter (GroupMember.set_is_leader true) ni
                     (alter (GroupMember.set_is_leader false) ci
                        (group_members d)))
                  (invites d) (theses d) (informations d) (student_infos d))
    in *.
  assert (well_formed d') as ([K1' K2'] & Q' & S' & [L1' L2']).
  { apply reachable_well_formed.
    apply (step_reachable (TransferLeader gid new cur) d); [done|done|].
    unfold run_call. simpl. unfold s in Hrun. by rewrite Hrun. }
  exists ci, c, ni, n, d'.
  split_and!; [done|done|reflexivity|exact Hrun|..].
  - by apply well_formed_one_leader.
  - unfold leaders_of_group.
    apply (filter_the_one _ GroupMember.student_id); [done|..].
    + apply list_elem_of_lookup. exists ni. simpl.
      rewrite list_lookup_alter_eq.
      destruct (decide (ci = ni)) as [->|Hne].
      * by rewrite list_lookup_alter_eq, Hni.
      * by rewrite list_lookup_alter_ne, Hni.
    + done.
    + intros y Hy [Hyg Hyl]. simpl.
      rewrite (L2' y (Group.set_leader_id new g)); [by rewrite Hns|done|..].
      * apply list_elem_of_lookup. exists gi. simpl.
        apply list_lookup_insert_eq. by eapply lookup_lt_Some.
      * simpl. congruence.
      * done.
Qed.

(** ** The properties at work on the example stores *)

Lemma store_two_reachable : reachable store_two.
Proof.
  apply (step_reachable (AddMember 100 (GroupMemberCreate.mk 2) 1) store_created); [|done|done].
  apply (step_reachable (CreateGroup (GroupCreate.mk "G1") 1 100) store_start); [| |done].
  - by apply reachable_initial.
  - simpl. rewrite <-find_group_None. reflexivity.
Qed.

Ltac in_rows H :=
  apply list_elem_of_In in H; simpl in H;
  repeat (destruct H as [<-|H]; [|]); [..|destruct H].

Lemma add_member_checks_witness :
  let s := open_session store_two in
  add_member 999 (GroupMemberCreate.mk 3) 1 s = (Raise NotFound, s)
  ∧ add_member 100 (GroupMemberCreate.mk 3) 2 s = (Raise Forbidden, s)
  ∧ add_member 100 (GroupMemberCreate.mk 9) 1 (open_session store_full)
    = (Raise Conflict, open_session store_full)
  ∧ add_member 100 (GroupMemberCreate.mk 2) 1 s = (Raise Conflict, s)
  ∧ add_member 100 (GroupMemberCreate.mk 3) 1 s
    = (Return (GroupMember.mk 100 3 false),
       mkSession store_three store_three 1).
Proof.
  intros s. split_and!.
  - apply (add_member_checks 999 (GroupMemberCreate.mk 3) 1 s).
    rewrite <-find_group_None. reflexivity.
  - destruct (add_member_checks 100 (GroupMemberCreate.mk 3) 2 s) as [_ H].
    destruct (H 0%nat _ eq_refl) as (Hforbidden & _). by apply Hforbidden.
  - destruct (add_member_checks 100 (GroupMemberCreate.mk 9) 1
                (open_session store_full)) as [_ H].
    destruct (H 0%nat _ eq_refl) as (_ & Hfull & _). by apply Hfull.
  - destruct (add_member_checks 100 (GroupMemberCreate.mk 2) 1 s) as [_ H].
    destruct (H 0%nat _ eq_refl) as (_ & _ & Htaken & _).
    apply Htaken; [done..|].
    exists (GroupMember.mk 100 2 false). split; [|done].
    apply list_elem_of_In. simpl. tauto.
  - destruct (add_member_checks 100 (GroupMemberCreate.mk 3) 1 s) as [_ H].
    destruct (H 0%nat _ eq_refl) as (_ & _ & _ & Hadded).
    apply Hadded; [done..|].
    intros (m & Hm & Hs). in_rows Hm; discriminate.
Defined.

(** The store of the counterexample to C3 as it was stated: thesis 9 has no
    row and group 200 references it; the call answers NotFound, not
    Conflict. *)
Lemma register_thesis_dangling_counterexample :
  let s := open_session store_dangling in
  find_group store_dangling 100 = Some (0%nat, Group.mk 100 "G1" 1 1 None)
  ∧ thesis_held store_dangling 9
  ∧ register_thesis_for_group 100 9 1 s = (Raise NotFound, s)
  ∧ register_thesis_for_group 100 9 1 s ≠ (Raise Conflict, s).
Proof.
  intros s. split_and!; [reflexivity| |reflexivity|discriminate].
  exists (Group.mk 200 "G2" 5 1 (Some 9%N)). split; [|done].
  apply list_elem_of_In. simpl. tauto.
Qed.

Lemma register_thesis_for_group_checks_witness :
  let s := open_session store_full in
  register_thesis_for_group 100 9 1 s = (Raise NotFound, s)
  ∧ register_thesis_for_group 100 7 1 s = (Raise Conflict, s)
  ∧ ∃ d', register_thesis_for_group 100 8 1 s
          = (Return (Group.mk 100 "G1" 1 4 (Some 8%N)), mkSession d' d' 1)
          ∧ groups d' = [Group.mk 100 "G1" 1 4 (Some 8%N);
                         Group.mk 200 "G2" 5 1 (Some 7%N)]
          ∧ theses d' = [Thesis.mk 7 1; Thesis.mk 8 2].
Proof.
  intros s. split_and!.
  - apply (register_thesis_for_group_checks 100 9 1 s 0 _ eq_refl eq_refl
             eq_refl).
    rewrite <-find_thesis_None. reflexivity.
  - destruct (register_thesis_for_group_checks 100 7 1 s 0 _ eq_refl eq_refl
                eq_refl) as [_ H].
    destruct (H 0%nat _ eq_refl) as [Hheld _]. apply Hheld.
    exists (Group.mk 200 "G2" 5 1 (Some 7%N)). split; [|done].
    apply list_elem_of_In. simpl. tauto.
  - destruct (register_thesis_for_group_checks 100 8 1 s 0 _ eq_refl eq_refl
                eq_refl) as [_ H].
    destruct (H 1%nat _ eq_refl) as [_ Hfree].
    eexists. split; [apply Hfree|done].
    intros (g & Hg & Hheld). in_rows Hg; discriminate.
Defined.

(** The store of the counterexample to C4 as it was stated: student 2 is a
    member of group 100 and has an Information row, but no StudentInfo row,
    and is left out of both answers. *)
Lemma details_one_profile_counterexample :
  let s := open_session store_two in
  let an := MemberDetailResponse.mk 1 "Nguyen An" "SV001" true in
  member_of store_two 100 2
  ∧ has_information store_two 2
  ∧ get_detailed_members_of_group 100 s = (Return [an], s)
  ∧ get_all_groups_for_user 2 s
    = (Return [GroupWithMembersResponse.mk 100 "G1" 1 [an]], s).
Proof.
  intros s an. split_and!; [| |reflexivity|reflexivity].
  - exists (GroupMember.mk 100 2 false). split; [|done].
    apply list_elem_of_In. simpl. tauto.
  - exists (Information.mk 2 "Binh" "Tran"). split; [|done].
    apply list_elem_of_In. simpl. tauto.
Qed.

Lemma member_details_need_both_profiles_witness :
  let s := open_session store_two in
  let an := MemberDetailResponse.mk 1 "Nguyen An" "SV001" true in
  get_detailed_members_of_group 100 s = (Return [an], s)
  ∧ get_all_groups_for_user 1 s
    = (Return [GroupWithMembersResponse.mk 100 "G1" 1 [an]], s)
  ∧ ¬ has_student_info store_two 2.
Proof.
  intros s an.
  destruct (member_details_need_both_profiles 1 s)
    as (Hone & _ & Hall & Hrule).
  split_and!.
  - rewrite Hone; [reflexivity|].
    exists (Group.mk 100 "G1" 1 2 None). split; [|done].
    apply list_elem_of_In. simpl. tauto.
  - rewrite Hall. reflexivity.
  - intros Hinfo.
    assert (GroupMember.mk 100 2 false ∈ members_of_group (pending s) 100)
      as Hm by (apply list_elem_of_In; simpl; tauto).
    destruct (Hrule 100%N _ Hm) as [_ Hlisted].
    destruct Hlisted as (x & Hx & Hu).
    + split; [|exact Hinfo].
      exists (Information.mk 2 "Binh" "Tran"). split; [|done].
      apply list_elem_of_In. simpl. tauto.
    + in_rows Hx. discriminate Hu.
Defined.

Lemma quantity_is_live_member_count_witness :
  quantity_is_member_count store_two
  ∧ member_count store_two 100 = 2.
Proof.
  split; [|reflexivity].
  apply (quantity_is_live_member_count store_two store_two_reachable).
Defined.

(** The store of the counterexample to C6 as it was stated: on the
    reachable [store_two] student 2 is in group 100, and adding the student
    to a group that is not there raises NotFound, not Conflict. *)
Lemma add_member_taken_counterexample :
  let s := open_session store_two in
  reachable store_two
  ∧ in_any_group store_two 2
  ∧ add_member 999 (GroupMemberCreate.mk 2) 1 s = (Raise NotFound, s)
  ∧ add_member 999 (GroupMemberCreate.mk 2) 1 s ≠ (Raise Conflict, s)
  ∧ add_member 100 (GroupMemberCreate.mk 2) 3 s = (Raise Forbidden, s).
Proof.
  intros s.
  split_and!; [apply store_two_reachable| |reflexivity|discriminate
              |reflexivity].
  exists (GroupMember.mk 100 2 false). split; [|done].
  apply list_elem_of_In. simpl. tauto.
Qed.

Lemma student_in_at_most_one_group_witness :
  let s := open_session store_two in
  one_group_per_student store_two
  ∧ create_group (GroupCreate.mk "G2") 2 200 s = (Raise Conflict, s)
  ∧ add_member 100 (GroupMemberCreate.mk 2) 1 s = (Raise Conflict, s)
  ∧ add_member 100 (GroupMemberCreate.mk 2) 3 s = (Raise Forbidden, s)
  ∧ add_member 999 (GroupMemberCreate.mk 2) 1 s = (Raise NotFound, s).
Proof.
  intros s.
  destruct student_in_at_most_one_group as (Hinv & Hcreate & Hadd).
  assert (in_any_group (pending s) 2) as Htaken.
  { exists (GroupMember.mk 100 2 false). split; [|done].
    apply list_elem_of_In. simpl. tauto. }
  split_and!.
  - apply (Hinv store_two store_two_reachable).
  - by apply Hcreate.
  - destruct (Hadd s 100%N (GroupMemberCreate.mk 2) 1%N Htaken) as [_ H].
    by apply (H 0%nat (Group.mk 100 "G1" 1 2 None)).
  - destruct (Hadd s 100%N (GroupMemberCreate.mk 2) 3%N Htaken) as [_ H].
    by apply (H 0%nat (Group.mk 100 "G1" 1 2 None)).
  - destruct (Hadd s 999%N (GroupMemberCreate.mk 2) 1%N Htaken) as [H _].
    apply H. rewrite <-find_group_None. reflexivity.
Defined.

Lemma one_leader_after_transfer_witness :
  let s := open_session store_two in
  one_leader_per_group store_two
  ∧ transfer_leader 999 2 1 s = (Raise NotFound, s)
  ∧ transfer_leader 100 1 2 s = (Raise Forbidden, s)
  ∧ transfer_leader 100 3 1 s = (Raise NotFound, s)
  ∧ transfer_leader 100 2 1 s
    = (Return tt, mkSession store_handed store_handed 1)
  ∧ leaders_of_group store_handed 100 = [GroupMember.mk 100 2 true].
Proof.
  intros s.
  destruct (one_leader_after_transfer store_two store_two_reachable)
    as [Hone Htransfer].
  split_and!.
  - exact Hone.
  - apply (Htransfer 999%N 2%N 1%N).
    rewrite <-find_group_None. reflexivity.
  - destruct (Htransfer 100%N 1%N 2%N) as [_ H].
    destruct (H 0%nat _ eq_refl) as (Hforbidden & _). by apply Hforbidden.
  - destruct (Htransfer 100%N 3%N 1%N) as [_ H].
    destruct (H 0%nat _ eq_refl) as (_ & Hnotmember & _).
    apply Hnotmember; [done|].
    rewrite <-find_member_None. reflexivity.
  - destruct (Htransfer 100%N 2%N 1%N) as [_ H].
    destruct (H 0%nat _ eq_refl) as (_ & _ & Hok).
    destruct Hok as (ci & c & ni & n & d' & Hc & Hn & Hd' & Hrun & _).
    + done.
    + exists (GroupMember.mk 100 2 false). split; [|done].
      apply list_elem_of_In. simpl. tauto.
    + vm_compute in Hc. vm_compute in Hn. simplify_eq. exact Hrun.
  - destruct (Htransfer 100%N 2%N 1%N) as [_ H].
    destruct (H 0%nat _ eq_refl) as (_ & _ & Hok).
    destruct Hok as (ci & c & ni & n & d' & Hc & Hn & Hd' & _ & _ & Hleaders).
    + done.
    + exists (GroupMember.mk 100 2 false). split; [|done].
      apply list_elem_of_In. simpl. tauto.
    + vm_compute in Hc. vm_compute in Hn. simplify_eq. exact Hleaders.
Defined.

Lemma remove_member_checks_witness :
  let s := open_session store_two in
  remove_member 999 2 1 s = (Raise NotFound, s)
  ∧ remove_member 100 1 2 s = (Raise Forbidden, s)
  ∧ remove_member 100 1 1 s = (Raise Conflict, s)
  ∧ remove_member 100 3 1 s = (Raise NotFound, s)
  ∧ remove_member 100 2 1 s
    = (Return tt, mkSession store_created store_created 1).
Proof.
  intros s. split_and!.
  - apply (remove_member_checks 999 2 1 s).
    rewrite <-find_group_None. reflexivity.
  - destruct (remove_member_checks 100 1 2 s) as [_ H].
    destruct (H 0%nat _ eq_refl) as (Hforbidden & _). by apply Hforbidden.
  - destruct (remove_member_checks 100 1 1 s) as [_ H].
    destruct (H 0%nat _ eq_refl) as (_ & Hleader & _). by apply Hleader.
  - destruct (remove_member_checks 100 3 1 s) as [_ H].
    destruct (H 0%nat _ eq_refl) as (_ & _ & Hnotmember & _).
    apply Hnotmember; [done..|].
    rewrite <-find_member_None. reflexivity.
  - destruct (remove_member_checks 100 2 1 s) as [_ H].
    destruct (H 0%nat _ eq_refl) as (_ & _ & _ & Hremoved).
    by apply (Hremoved eq_refl ltac:(done) 1%nat (GroupMember.mk 100 2 false)).
Defined.

Lemma delete_group_checks_witness :
  let s := open_session store_two in
  let d' := mkDB [] [] [Invite.mk 200 2] (theses store_start)
              (informations store_start) (student_infos store_start) in
  delete_group 999 1 s = (Raise NotFound, s)
  ∧ delete_group 100 2 s = (Raise Forbidden, s)
  ∧ delete_group 200 5 (open_session store_full)
    = (Raise Conflict, open_session store_full)
  ∧ delete_group 100 1 s = (Return tt, mkSession d' d' 1).
Proof.
  intros s d'. split_and!.
  - apply (delete_group_checks 999 1 s).
    rewrite <-find_group_None. reflexivity.
  - destruct (delete_group_checks 100 2 s) as [_ H].
    destruct (H 0%nat _ eq_refl) as (Hforbidden & _). by apply Hforbidden.
  - destruct (delete_group_checks 200 5 (open_session store_full)) as [_ H].
    destruct (H 1%nat _ eq_refl) as (_ & Hthesis & _). by apply Hthesis.
  - destruct (delete_group_checks 100 1 s) as [_ H].
    destruct (H 0%nat _ eq_refl) as (_ & _ & Hdeleted).
    by destruct (Hdeleted eq_refl eq_refl) as [Hrun _].
Defined.

Lemma transfer_leader_to_self_witness :
  transfer_leader 100 1 1 (open_session store_two)
  = (Return tt, mkSession store_two store_two 1).
Proof.
  apply (transfer_leader_to_self 100 1 (open_session store_two) 0
           (Group.mk 100 "G1" 1 2 None)).
  - reflexivity.
  - reflexivity.
  - exists (GroupMember.mk 100 1 true). split; [|done].
    apply list_elem_of_In. simpl. tauto.
  - intros m Hm Hg Hs. in_rows Hm; [reflexivity|discriminate Hs].
Defined.

(** The run of the specification's example: create G1 as student 1, add
    student 2, fail to remove the leader, hand the group over, remove the
    former leader. *)
Example specification_run :
  run_call (CreateGroup (GroupCreate.mk "G1") 1 100) store_start = (Return tt, store_created)
  ∧ run_call (AddMember 100 (GroupMemberCreate.mk 2) 1) store_created = (Return tt, store_two)
  ∧ run_call (RemoveMember 100 1 1) store_two = (Raise Conflict, store_two)
  ∧ run_call (TransferLeader 100 2 1) store_two = (Return tt, store_handed)
  ∧ ∃ d, run_call (RemoveMember 100 1 2) store_handed = (Return tt, d)
         ∧ groups d = [Group.mk 100 "G1" 2 1 None]
         ∧ group_members d = [GroupMember.mk 100 2 true].
Proof. split_and!; try reflexivity. by eexists. Qed.

(** ** More on running calls *)

(** The conditions of [returns_with] are also sufficient. *)
Lemma returns_with_run_call (c : call) (d d' : DB) :
  returns_with c d d' → run_call c d = (Return tt, d').
Proof.
  unfold run_call.
  destruct c; simpl;
    unfold find_group, find_member, find_thesis, create_group, add_member, is_member_of_any_group, remove_member,
      transfer_leader, update_group_name, delete_group,
      register_thesis_for_group;
    run.
  - intros [Hfree ->]. rewrite in_any_group_find in Hfree.
    by destruct (list_find _ (group_members d)) as [[]|]; [destruct Hfree|].
  - intros (gi & g & -> & Hl & Hq & Hfree & ->).
    rewrite in_any_group_find in Hfree.
    rewrite decide_False by (intros Hne; by apply Hne).
    rewrite decide_False by lia. simpl.
    by rewrite bool_decide_eq_false_2.
  - intros (gi & g & mi & m & -> & Hl & Hne & Hm & ->).
    rewrite decide_False by (intros Hn; by apply Hn).
    rewrite decide_False by done. simpl. by rewrite Hm.
  - intros (gi & g & ci & c & ni & n & -> & Hl & Hc & Hn & ->).
    rewrite decide_False by (intros Hne; by apply Hne).
    simpl. rewrite !find_member_swapped. unfold find_member.
    by rewrite Hc, Hn.
  - intros (gi & g & -> & Hl & ->).
    by rewrite decide_False by (intros Hne; by apply Hne).
  - intros (gi & g & -> & Hl & Ht & ->).
    rewrite decide_False by (intros Hne; by apply Hne).
    by rewrite decide_False by (intros Hne; by apply Hne).
  - intros (gi & g & ti & t & -> & Hl & Ht & Hth & Hfree & ->).
    rewrite thesis_held_find in Hfree.
    rewrite decide_False by (intros Hne; by apply Hne).
    rewrite decide_False by (intros Hne; by apply Hne).
    simpl. rewrite Hth. change (pending (open_session d)) with d.
    by destruct (list_find _ (groups d)) as [[]|]; [destruct Hfree|].
Qed.

(** A call that raises leaves the store as it was. *)
Lemma run_call_raises (c : call) (d d' : DB) (e : exn) :
  run_call c d = (Raise e, d') → d' = d.
Proof.
  unfold run_call.
  destruct c; simpl;
    unfold create_group, add_member, is_member_of_any_group, remove_member,
      transfer_leader, update_group_name, delete_group,
      register_thesis_for_group;
    run;
    repeat (case_match; simplify_eq/=; try done); by intros [= <-].
Qed.

(** ** Searching an updated table *)

Lemma alter_fixed {A} (f : A → A) (l : list A) (i : nat) :
  (∀ x, l !! i = Some x → f x = x) → alter f i l = l.
Proof.
  intros Hfix. apply list_eq. intros j.
  destruct (decide (i = j)) as [<-|Hne].
  - rewrite list_lookup_alter_eq.
    destruct (l !! i) as [x|] eqn:E; [|done]. simpl. by rewrite Hfix.
  - by rewrite list_lookup_alter_ne.
Qed.

Lemma filter_all {A} (P : A → Prop) `{∀ x, Decision (P x)} (l : list A) :
  (∀ x, x ∈ l → P x) → filter P l = l.
Proof.
  induction l as [|a l IH]; intros Hall; [done|].
  rewrite filter_cons_True by (apply Hall; left).
  f_equal. apply IH. intros x Hx. apply Hall. by right.
Qed.

(** An update that does not change what the filter sees does not change
    which row a query finds. *)
Lemma list_find_alter_same {A} (P : A → Prop) `{∀ x, Decision (P x)}
    (f : A → A) (l : list A) (i j : nat) (x : A) :
  (∀ y, P (f y) ↔ P y) →
  list_find P l = Some (j, x) →
  list_find P (alter f i l) = Some (j, if decide (i = j) then f x else x).
Proof.
  intros Hf (Hj & HP & Hmin)%list_find_Some. apply list_find_Some.
  split_and!.
  - destruct (decide (i = j)) as [->|Hne].
    + by rewrite list_lookup_alter_eq, Hj.
    + by rewrite list_lookup_alter_ne.
  - case_decide; [by apply Hf|done].
  - intros k y Hk Hlt.
    destruct (decide (i = k)) as [->|Hne].
    + rewrite list_lookup_alter_eq in Hk.
      destruct (l !! k) as [z|] eqn:E; [|done]. simplify_eq/=.
      rewrite Hf. by eapply Hmin.
    + rewrite list_lookup_alter_ne in Hk by done. by eapply Hmin.
Qed.

Lemma find_group_alter (f : Group.t → Group.t) (d : DB) (l : list Group.t)
    (gid : UUID) (i j : nat) (g : Group.t) :
  (∀ z, Group.id (f z) = Group.id z) →
  list_find (λ z, Group.id z = gid) l = Some (j, g) →
  list_find (λ z, Group.id z = gid) (alter f i l)
  = Some (j, if decide (i = j) then f g else g).
Proof.
  intros Hid. apply list_find_alter_same. intros y. by rewrite Hid.
Qed.

Lemma list_find_snoc_fresh {A} (P : A → Prop) `{∀ x, Decision (P x)}
    (l : list A) (x : A) :
  (∀ y, y ∈ l → ¬ P y) → P x →
  list_find P (l ++ [x]) = Some (length l, x).
Proof.
  intros Hno HP. rewrite list_find_app_r.
  - simpl. rewrite decide_True by done. done.
  - apply list_find_None, Forall_forall. exact Hno.
Qed.

Lemma delete_snoc {A} (l : list A) (x : A) :
  delete (length l) (l ++ [x]) = l.
Proof. rewrite delete_middle. apply app_nil_r. Qed.

(** ** Further checks of the operations *)

(** X1. When the group exists, the caller is its leader_id and the new
    leader has a row in the group, but the leader has no membership row in
    it, [transfer_leader] raises AttributeError (no HTTP failure) on the
    first assignment and leaves the session as it was. *)
Theorem transfer_leader_without_leader_row
    (group_id new_leader_id current_leader_id : UUID) (s : Session)
    (gi : nat) (g : Group.t) :
  find_group (pending s) group_id = Some (gi, g) →
  Group.leader_id g = current_leader_id →
  member_of (pending s) group_id new_leader_id →
  ¬ member_of (pending s) group_id current_leader_id →
  transfer_leader group_id new_leader_id current_leader_id s
  = (Raise AttributeError, s).
Proof.
  intros Hg Hlead Hnew Hcur.
  destruct (list_find_is_Some _ _ Hnew) as (ni & n & Hn).
  destruct (transfer_leader_cases group_id new_leader_id current_leader_id s)
    as [_ Hcases].
  destruct (Hcases gi g Hg) as (_ & _ & Hok).
  destruct (Hok Hlead ni n Hn) as [_ Hcrash]. by apply Hcrash.
Qed.

(** X2. [register_thesis_for_group] checks the group before it looks at the
    thesis: NotFound when the group is absent, Forbidden when the caller is
    not its leader, Conflict when the group has a thesis already, in this
    order and whatever the thesis table holds. *)
Theorem register_thesis_for_group_guards (group_id thesis_id user_id : UUID)
    (s : Session) :
  let d := pending s in
  let r := register_thesis_for_group group_id thesis_id user_id s in
  (¬ group_exists d group_id → r = (Raise NotFound, s)) ∧
  (∀ gi g, find_group d group_id = Some (gi, g) →
     (Group.leader_id g ≠ user_id → r = (Raise Forbidden, s)) ∧
     (Group.leader_id g = user_id → Group.thesis_id g ≠ None →
        r = (Raise Conflict, s))).
Proof.
  intros d r. subst r d. unfold register_thesis_for_group. run.
  fold (find_group (pending s) group_id).
  split.
  - intros Hno. apply find_group_None in Hno. by rewrite Hno.
  - intros gi g Hg. rewrite Hg.
    split_and!; intros; repeat case_decide; done.
Qed.

(** X3. [update_group_name] raises NotFound when the group is absent and
    Forbidden when the caller is not its leader; otherwise it replaces the
    name of that one group row, keeps every other column, row and table,
    commits, and returns the renamed row. *)
Theorem update_group_name_checks (group_id : UUID) (new_name : string)
    (user_id : UUID) (s : Session) :
  let d := pending s in
  let r := update_group_name group_id new_name user_id s in
  (¬ group_exists d group_id → r = (Raise NotFound, s)) ∧
  (∀ gi g, find_group d group_id = Some (gi, g) →
     (Group.leader_id g ≠ user_id → r = (Raise Forbidden, s)) ∧
     (Group.leader_id g = user_id →
        let g' := Group.mk (Group.id g) new_name (Group.leader_id g)
                    (Group.quantity g) (Group.thesis_id g) in
        let d' := mkDB (<[gi := g']> (groups d)) (group_members d)
                    (invites d) (theses d) (informations d)
                    (student_infos d) in
        r = (Return g', mkSession d' d' (S (commits s))))).
Proof.
  intros d r. subst r d. unfold update_group_name. run.
  fold (find_group (pending s) group_id).
  split.
  - intros Hno. apply find_group_None in Hno. by rewrite Hno.
  - intros gi g Hg. rewrite Hg.
    apply find_group_lookup in Hg as [Hgi _].
    split_and!; intros; repeat case_decide; try done.
    by rewrite (alter_found _ _ _ _ Hgi).
Qed.

(** ** The read operations *)

Lemma get_detailed_members_of_group_run (group_id : UUID) (s : Session) :
  get_detailed_members_of_group group_id s
  = match find_group (pending s) group_id with
    | None => (Raise NotFound, s)
    | Some _ =>
        (Return (omap (member_detail (pending s))
                   (members_of_group (pending s) group_id)), s)
    end.
Proof.
  unfold get_detailed_members_of_group. run.
  fold (find_group (pending s) group_id).
  destruct (find_group (pending s) group_id) as [[gi g]|]; [|done].
  by rewrite member_loop.
Qed.

Lemma get_all_groups_for_user_run (user_id : UUID) (s : Session) :
  get_all_groups_for_user user_id s
  = (Return (omap (group_entry (pending s))
               (filter (λ m, GroupMember.student_id m = user_id)
                  (group_members (pending s)))), s).
Proof.
  unfold get_all_groups_for_user. run.
  destruct (filter _ (group_members (pending s))) as [|m ms] eqn:Hms;
    [done|].
  by rewrite group_loop.
Qed.

Lemma get_group_with_detailed_members_run (group_id : UUID) (s : Session) :
  get_group_with_detailed_members group_id s
  = match find_group (pending s) group_id with
    | None => (Raise NotFound, s)
    | Some (_, g) =>
        (Return (GroupWithMembersResponse.mk (Group.id g) (Group.name g)
                   (Group.leader_id g)
                   (omap (member_detail (pending s))
                      (members_of_group (pending s) group_id))), s)
    end.
Proof.
  unfold get_group_with_detailed_members. unfold mbind, M_bind at 1.
  unfold query_first at 1. cbn beta iota.
  fold (find_group (pending s) group_id).
  destruct (find_group (pending s) group_id) as [[gi g]|] eqn:Hg; [|done].
  unfold mbind, M_bind. rewrite get_detailed_members_of_group_run, Hg.
  done.
Qed.

(** X4. The five read operations never write and never commit: whatever
    they answer, the session after the call is the session before it. *)
Theorem read_operations_keep_session (s : Session) :
  (∀ user_id, snd (is_member_of_any_group user_id s) = s)
  ∧ (∀ group_id, snd (get_members group_id s) = s)
  ∧ (∀ user_id, snd (get_all_groups_for_user user_id s) = s)
  ∧ (∀ group_id, snd (get_detailed_members_of_group group_id s) = s)
  ∧ (∀ group_id, snd (get_group_with_detailed_members group_id s) = s).
Proof.
  split_and!.
  - done.
  - done.
  - intros u. by rewrite get_all_groups_for_user_run.
  - intros gid. rewrite get_detailed_members_of_group_run.
    by destruct (find_group (pending s) gid).
  - intros gid. rewrite get_group_with_detailed_members_run.
    by destruct (find_group (pending s) gid) as [[]|].
Qed.

(** X5. [get_group_with_detailed_members] raises NotFound for a group that
    is absent; for a group that exists it answers with the id, name and
    leader of the group row and, as members, exactly the list that
    [get_detailed_members_of_group] answers for that group. *)
Theorem get_group_with_detailed_members_checks (group_id : UUID)
    (s : Session) :
  let d := pending s in
  let r := get_group_with_detailed_members group_id s in
  (¬ group_exists d group_id → r = (Raise NotFound, s)) ∧
  (∀ gi g, find_group d group_id = Some (gi, g) →
     ∃ members_list,
       get_detailed_members_of_group group_id s = (Return members_list, s)
       ∧ r = (Return (GroupWithMembersResponse.mk group_id (Group.name g)
                        (Group.leader_id g) members_list), s)).
Proof.
  intros d r. subst r d. rewrite get_group_with_detailed_members_run.
  split.
  - intros Hno. apply find_group_None in Hno. by rewrite Hno.
  - intros gi g Hg. rewrite get_detailed_members_of_group_run, Hg.
    eexists. split; [done|].
    apply find_group_lookup in Hg as [_ <-]. done.
Qed.

(** X20. [create_group] raises Conflict exactly when
    [is_member_of_any_group] answers True for the caller, and it raises
    nothing else.  Otherwise it appends the group row (quantity 1, no
    thesis, the caller as leader) and the caller's membership row flagged
    as leader, commits and returns the group row; from then on
    [is_member_of_any_group] answers True for the caller. *)
Theorem create_group_checks (group : GroupCreate.t) (user_id new_id : UUID)
    (s : Session) :
  let d := pending s in
  let r := create_group group user_id new_id s in
  (in_any_group d user_id →
     is_member_of_any_group user_id s = (Return true, s)
     ∧ r = (Raise Conflict, s)) ∧
  (¬ in_any_group d user_id →
     let new_group :=
       Group.mk new_id (GroupCreate.name group) user_id 1 None in
     let d' :=
       mkDB (groups d ++ [new_group])
            (group_members d ++ [GroupMember.mk new_id user_id true])
            (invites d) (theses d) (informations d) (student_infos d) in
     let s' := mkSession d' d' (S (commits s)) in
     is_member_of_any_group user_id s = (Return false, s)
     ∧ r = (Return new_group, s')
     ∧ is_member_of_any_group user_id s' = (Return true, s')).
Proof.
  intros d r. subst r d. unfold create_group, is_member_of_any_group. run.
  split.
  - intros Htaken. apply in_any_group_find in Htaken.
    rewrite bool_decide_eq_true_2 by done.
    by destruct (list_find _ (group_members (pending s))) as [[]|].
  - intros Hfree. rewrite in_any_group_find in Hfree.
    rewrite bool_decide_eq_false_2 by done.
    destruct (list_find _ (group_members (pending s))) as [[]|] eqn:E;
      [by destruct Hfree|].
    split_and!; [done..|].
    rewrite bool_decide_eq_true_2; [done|].
    rewrite list_find_snoc_fresh; [done| |done].
    intros y Hy Hs. apply list_find_is_None in E. apply E. by exists y.
Qed.

(** ** Further invariants of reachable stores *)

Lemma reachable_ind_wf (P : DB → Prop) :
  (∀ d, initial d → P d) →
  (∀ c d d', well_formed d → P d → key_is_fresh d c →
             returns_with c d d' → P d') →
  ∀ d, reachable d → P d.
Proof.
  intros Hinit Hstep d Hd.
  induction Hd as [d Hi|d d' Hd IH [c d'' Hfresh Hrun]]; [by apply Hinit|].
  eapply Hstep; [by apply reachable_well_formed|done..|].
  by apply run_call_returns.
Qed.

Lemma elem_of_delete {A} (l : list A) (i : nat) (x : A) :
  x ∈ delete i l → x ∈ l.
Proof. intros Hx. eapply elem_of_sublist; [exact Hx|]. apply sublist_delete. Qed.

Lemma quantity_at_most_four (d : DB) :
  reachable d → ∀ g, g ∈ groups d → Group.quantity g ≤ 4.
Proof.
  revert d.
  apply (reachable_ind_wf (λ d, ∀ g, g ∈ groups d → Group.quantity g ≤ 4)).
  - intros d [HG _] g Hg. rewrite HG in Hg. by apply elem_of_nil in Hg.
  - intros c d d' Hwf IH Hfresh Hret.
    pose proof Hwf as ([K1 _] & _).
    destruct c; simpl in Hret.
    + destruct Hret as [_ ->]. simpl.
      intros g [Hg| ->]%elem_of_snoc; [by apply IH|done].
    + destruct Hret as (gi & g & Hg & _ & Hq & _ & ->). simpl.
      rewrite (alter_group _ _ _ _ _ K1 Hg).
      apply find_group_elem in Hg as [Hgin Hgid].
      intros g' [z [-> Hz]]%list_elem_of_fmap.
      case_decide; [|by apply IH]. simpl.
      assert (z = g) as ->; [|lia].
      apply (unique_key_elem Group.id (groups d)); [done..|congruence].
    + destruct Hret as (gi & g & mi & m & Hg & _ & _ & _ & ->). simpl.
      rewrite (alter_group _ _ _ _ _ K1 Hg).
      intros g' [z [-> Hz]]%list_elem_of_fmap.
      specialize (IH z Hz). case_decide; simpl; lia.
    + destruct Hret as (gi & g & ci & c & ni & n & Hg & _ & _ & _ & ->).
      simpl. rewrite (alter_group _ _ _ _ _ K1 Hg).
      intros g' [z [-> Hz]]%list_elem_of_fmap.
      specialize (IH z Hz). by case_decide.
    + destruct Hret as (gi & g & Hg & _ & ->). simpl.
      rewrite (alter_group _ _ _ _ _ K1 Hg).
      intros g' [z [-> Hz]]%list_elem_of_fmap.
      specialize (IH z Hz). by case_decide.
    + destruct Hret as (gi & g & Hg & _ & _ & ->). simpl.
      intros g' Hg'%elem_of_delete. by apply IH.
    + destruct Hret as (gi & g & ti & t & Hg & _ & _ & _ & _ & ->). simpl.
      rewrite (alter_group _ _ _ _ _ K1 Hg).
      intros g' [z [-> Hz]]%list_elem_of_fmap.
      specialize (IH z Hz). by case_decide.
Qed.

Lemma quantity_at_least_one (d : DB) :
  well_formed d → ∀ g, g ∈ groups d → 1 ≤ Group.quantity g.
Proof.
  intros (_ & Q & _ & [L1 _]) g Hg. rewrite (Q g Hg).
  destruct (L1 g Hg) as (m & Hm & Hmg & _).
  unfold member_count, members_of_group.
  assert (m ∈ filter (λ x, GroupMember.group_id x = Group.id g)
                (group_members d)) as Hin
    by (by apply list_elem_of_filter).
  destruct (filter _ (group_members d)); [by apply elem_of_nil in Hin|].
  simpl. lia.
Qed.

(** X6. On every reachable store [get_members] answers with exactly the
    membership rows of the group, as many as the quantity of the group row
    says; for a group that is absent it raises nothing and answers with the
    empty list. *)
Theorem get_members_on_reachable (d : DB) :
  reachable d →
  ∀ group_id,
    let s := open_session d in
    ∃ rows,
      get_members group_id s = (Return rows, s)
      ∧ (∀ m, m ∈ rows ↔
              m ∈ group_members d ∧ GroupMember.group_id m = group_id)
      ∧ (∀ gi g, find_group d group_id = Some (gi, g) →
           Z.of_nat (length rows) = Group.quantity g)
      ∧ (¬ group_exists d group_id → rows = []).
Proof.
  intros Hd gid s.
  pose proof (reachable_well_formed d Hd) as ([K1 K2] & Q & _).
  exists (members_of_group d gid). split_and!.
  - done.
  - intros m. unfold members_of_group. rewrite list_elem_of_filter. tauto.
  - intros gi g [Hg <-]%find_group_elem. symmetry. by apply Q.
  - intros Hno. apply filter_none. intros m Hm Hmg.
    apply Hno. rewrite <-Hmg. by apply K2.
Qed.

(** X7. On every reachable store a group has between one and four members:
    its quantity, and with it the number of its membership rows, is at
    least 1 and at most 4. *)
Theorem group_size_between_one_and_four (d : DB) :
  reachable d →
  group_sizes_bounded d
  ∧ ∀ g, g ∈ groups d →
      (1 ≤ length (members_of_group d (Group.id g)) ≤ 4)%nat.
Proof.
  intros Hd. pose proof (reachable_well_formed d Hd) as Hwf.
  assert (group_sizes_bounded d) as Hb.
  { intros g Hg. split.
    - by apply (quantity_at_least_one d).
    - by apply (quantity_at_most_four d). }
  split; [done|]. intros g Hg.
  destruct Hwf as (_ & Q & _). specialize (Q g Hg). specialize (Hb g Hg).
  unfold member_count in Q. lia.
Qed.

(** X8. On every reachable store group ids are unique, every membership
    row belongs to a group that exists, and the leader of every group has a
    membership row in it. *)
Theorem memberships_reference_groups (d : DB) :
  reachable d →
  NoDup (Group.id <$> groups d)
  ∧ (∀ m, m ∈ group_members d → group_exists d (GroupMember.group_id m))
  ∧ (∀ g, g ∈ groups d → member_of d (Group.id g) (Group.leader_id g)).
Proof.
  intros Hd.
  pose proof (reachable_well_formed d Hd) as ([K1 K2] & _ & _ & [L1 _]).
  split_and!; [done..|].
  intros g Hg. destruct (L1 g Hg) as (m & Hm & Hmg & Hms & _).
  by exists m.
Qed.

Lemma thesis_refs_reachable (d : DB) :
  reachable d → thesis_refs_consistent d.
Proof.
  revert d. apply (reachable_ind_wf thesis_refs_consistent).
  - intros d [HG _]. split.
    + intros g1 g2 t Hg1. rewrite HG in Hg1. by apply elem_of_nil in Hg1.
    + intros g t Hg. rewrite HG in Hg. by apply elem_of_nil in Hg.
  - intros c d d' Hwf [T1 T2] Hfresh Hret.
    pose proof Hwf as ([K1 _] & _).
    assert (∀ (h : Group.t → Group.t) d',
              (∀ z, Group.thesis_id (h z) = Group.thesis_id z) →
              groups d' = h <$> groups d → theses d' = theses d →
              thesis_refs_consistent d') as Hkeep.
    { intros h d0 Hh HG HT. split.
      - intros g1 g2 t. rewrite HG.
        intros [z1 [-> Hz1]]%list_elem_of_fmap
               [z2 [-> Hz2]]%list_elem_of_fmap.
        rewrite !Hh. intros H1 H2. f_equal. by eapply T1.
      - intros g t. rewrite HG, HT.
        intros [z [-> Hz]]%list_elem_of_fmap. rewrite Hh. by apply T2. }
    destruct c; simpl in Hret.
    + destruct Hret as [_ ->]. split; simpl.
      * intros g1 g2 t [Hg1| ->]%elem_of_snoc [Hg2| ->]%elem_of_snoc;
          try done. by apply T1.
      * intros g t [Hg| ->]%elem_of_snoc; [by apply T2|done].
    + destruct Hret as (gi & g & Hg & _ & _ & _ & ->).
      eapply Hkeep; [|simpl; exact (alter_group _ _ _ _ _ K1 Hg)|done].
      intros z. simpl. by case_decide.
    + destruct Hret as (gi & g & mi & m & Hg & _ & _ & _ & ->).
      eapply Hkeep; [|simpl; exact (alter_group _ _ _ _ _ K1 Hg)|done].
      intros z. simpl. by case_decide.
    + destruct Hret as (gi & g & ci & c & ni & n & Hg & _ & _ & _ & ->).
      eapply Hkeep; [|simpl; exact (alter_group _ _ _ _ _ K1 Hg)|done].
      intros z. simpl. by case_decide.
    + destruct Hret as (gi & g & Hg & _ & ->).
      eapply Hkeep; [|simpl; exact (alter_group _ _ _ _ _ K1 Hg)|done].
      intros z. simpl. by case_decide.
    + destruct Hret as (gi & g & Hg & _ & _ & ->). split; simpl.
      * intros g1 g2 t Hg1%elem_of_delete Hg2%elem_of_delete. by apply T1.
      * intros g' t Hg'%elem_of_delete. by apply T2.
    + destruct Hret as (gi & g & ti & t & Hg & _ & Hnone & Ht & Hfree & ->).
      simpl. rewrite (alter_group _ _ _ _ _ K1 Hg).
      apply find_group_elem in Hg as [Hgin Hgid].
      unfold find_thesis in Ht. apply list_find_Some in Ht as (Hti & Htid & _).
      assert (∀ z, z ∈ groups d → Group.id z = group_id → z = g) as Hisg.
      { intros z Hz Hzid.
        apply (unique_key_elem Group.id (groups d)); [done..|congruence]. }
      split; simpl.
      * intros g1 g2 t0
          [z1 [-> Hz1]]%list_elem_of_fmap [z2 [-> Hz2]]%list_elem_of_fmap.
        destruct (decide (Group.id z1 = group_id)) as [E1|E1],
                 (decide (Group.id z2 = group_id)) as [E2|E2]; simpl.
        -- intros _ _. by rewrite (Hisg z1 Hz1 E1), (Hisg z2 Hz2 E2).
        -- intros [= <-] H2. destruct Hfree. by exists z2.
        -- intros H1 [= <-]. destruct Hfree. by exists z1.
        -- by apply T1.
      * intros g' t0 [z [-> Hz]]%list_elem_of_fmap.
        destruct (decide (Group.id z = group_id)) as [E|E]; simpl.
        -- intros [= <-]. exists (Thesis.set_status 2 t). split_and!.
           ++ apply list_elem_of_lookup. exists ti.
              by rewrite list_lookup_alter_eq, Hti.
           ++ done.
           ++ done.
        -- intros Hz0. destruct (T2 z t0 Hz Hz0) as (th & Hth & Hthid & Hst).
           exists th. split_and!; [|done..].
           apply list_elem_of_lookup in Hth as [j Hj].
           apply list_elem_of_lookup. exists j.
           rewrite list_lookup_alter_ne; [done|].
           intros <-. simplify_eq. destruct Hfree. by exists z.
Qed.

(** X9. On every reachable store a thesis is referenced by at most one
    group, and every thesis that a group references has a row whose status
    is 2. *)
Theorem thesis_held_by_one_group (d : DB) :
  reachable d →
  (∀ g1 g2 t, g1 ∈ groups d → g2 ∈ groups d →
     Group.thesis_id g1 = Some t → Group.thesis_id g2 = Some t → g1 = g2)
  ∧ (∀ g t, g ∈ groups d → Group.thesis_id g = Some t →
       ∃ th, th ∈ theses d ∧ Thesis.id th = t ∧ Thesis.status th = 2).
Proof. intros Hd. by apply thesis_refs_reachable. Qed.

(** ** How the operations compose *)

Lemma set_quantity_back (g : Group.t) :
  Group.set_quantity (Group.quantity (Group.set_quantity (Group.quantity g + 1) g) - 1)
    (Group.set_quantity (Group.quantity g + 1) g) = g.
Proof. destruct g. unfold Group.set_quantity. simpl. f_equal. lia. Qed.

(** X10. Removing the student that [add_member] has just added gives back
    the store as it was before the two calls: the membership table, the
    quantity and every other table.  The student must not be the id the
    group row has as its leader. *)
Theorem add_member_then_remove_member (group_id : UUID)
    (member : GroupMemberCreate.t) (leader_id : UUID) (d d1 : DB) :
  run_call (AddMember group_id member leader_id) d = (Return tt, d1) →
  GroupMemberCreate.student_id member ≠ leader_id →
  run_call (RemoveMember group_id (GroupMemberCreate.student_id member)
              leader_id) d1
  = (Return tt, d).
Proof.
  intros Hadd Hne.
  apply run_call_returns in Hadd as (gi & g & Hg & Hl & Hq & Hfree & ->).
  apply returns_with_run_call. simpl.
  set (f := λ r, Group.set_quantity (Group.quantity r + 1) r).
  set (new_member := GroupMember.mk group_id
                       (GroupMemberCreate.student_id member) false).
  exists gi, (f g), (length (group_members d)), new_member.
  split_and!.
  - unfold find_group. simpl.
    rewrite (find_group_alter f d _ _ gi gi g); [by rewrite decide_True|done|done].
  - done.
  - done.
  - unfold find_member. simpl. apply list_find_snoc_fresh; [|done].
    intros y Hy [_ Hs]. apply Hfree. by exists y.
  - simpl. rewrite delete_snoc, list_alter_alter_eq.
    rewrite alter_fixed; [by destruct d|].
    intros x _. apply set_quantity_back.
Qed.

Lemma flag_set_true (m : GroupMember.t) :
  GroupMember.is_leader m = true → GroupMember.set_is_leader true m = m.
Proof. destruct m. simpl. by intros ->. Qed.

Lemma flag_set_false (m : GroupMember.t) :
  GroupMember.is_leader m = false → GroupMember.set_is_leader false m = m.
Proof. destruct m. simpl. by intros ->. Qed.

Lemma find_member_alter (f : GroupMember.t → GroupMember.t)
    (l : list GroupMember.t) (gid u : UUID) (i j : nat) (m : GroupMember.t) :
  (∀ x, GroupMember.group_id (f x) = GroupMember.group_id x
        ∧ GroupMember.student_id (f x) = GroupMember.student_id x) →
  list_find (λ x, GroupMember.group_id x = gid
                  ∧ GroupMember.student_id x = u) l = Some (j, m) →
  list_find (λ x, GroupMember.group_id x = gid
                  ∧ GroupMember.student_id x = u) (alter f i l)
  = Some (j, if decide (i = j) then f m else m).
Proof.
  intros Hf. apply list_find_alter_same. intros y.
  destruct (Hf y) as [-> ->]. done.
Qed.

(** The leader's row is flagged and the rows of the other members of the
    group are not. *)
Lemma well_formed_flags (d : DB) (gid : UUID) (gi : nat) (g : Group.t)
    (u : UUID) (mi : nat) (m : GroupMember.t) :
  well_formed d →
  find_group d gid = Some (gi, g) →
  find_member d gid u = Some (mi, m) →
  GroupMember.is_leader m = bool_decide (u = Group.leader_id g).
Proof.
  intros (_ & _ & S & [L1 L2]) [Hgin Hgid]%find_group_elem
         (Hmi & Hmg & Hms)%find_member_lookup.
  assert (m ∈ group_members d) as Hmin by by eapply list_elem_of_lookup_2.
  destruct (decide (u = Group.leader_id g)) as [Heq|Hne].
  - rewrite bool_decide_eq_true_2 by done.
    destruct (L1 g Hgin) as (x & Hx & Hxg & Hxs & Hxl).
    assert (x = m) as <-; [|done].
    apply (unique_key_elem GroupMember.student_id (group_members d));
      [done..|congruence].
  - rewrite bool_decide_eq_false_2 by done.
    destruct (GroupMember.is_leader m) eqn:E; [|done].
    destruct Hne. rewrite <-Hms. apply L2; [done..|congruence|done].
Qed.

(** X11. On a reachable store, handing the leadership over and having the
    new leader hand it back gives the store as it was before the two
    calls. *)
Theorem transfer_leader_there_and_back
    (group_id new_leader_id current_leader_id : UUID) (d d1 : DB) :
  reachable d →
  run_call (TransferLeader group_id new_leader_id current_leader_id) d
  = (Return tt, d1) →
  run_call (TransferLeader group_id current_leader_id new_leader_id) d1
  = (Return tt, d).
Proof.
  intros Hd Hrun. pose proof (reachable_well_formed d Hd) as Hwf.
  apply run_call_returns in Hrun
    as (gi & g & ci & c & ni & n & Hg & Hl & Hc & Hn & ->).
  pose proof (well_formed_flags _ _ _ _ _ _ _ Hwf Hg Hc) as Hcflag.
  pose proof (well_formed_flags _ _ _ _ _ _ _ Hwf Hg Hn) as Hnflag.
  rewrite bool_decide_eq_true_2 in Hcflag by done.
  apply returns_with_run_call. simpl.
  set (t := GroupMember.set_is_leader true).
  set (f := GroupMember.set_is_leader false).
  assert (∀ b x, GroupMember.group_id (GroupMember.set_is_leader b x)
                 = GroupMember.group_id x
                 ∧ GroupMember.student_id (GroupMember.set_is_leader b x)
                   = GroupMember.student_id x) as Hkeys by done.
  eexists gi, _, ni, _, ci, _. split_and!.
  - unfold find_group. simpl.
    by apply (find_group_alter _ d _ _ gi gi g).
  - rewrite decide_True by done. done.
  - unfold find_member. simpl.
    apply find_member_alter; [apply Hkeys|].
    apply find_member_alter; [apply Hkeys|]. exact Hn.
  - unfold find_member. simpl.
    apply find_member_alter; [apply Hkeys|].
    apply find_member_alter; [apply Hkeys|]. exact Hc.
  - simpl.
    apply find_group_lookup in Hg as [Hgi _].
    apply find_member_lookup in Hc as (Hci & _ & Hcs).
    apply find_member_lookup in Hn as (Hni & _ & Hns).
    assert (alter (Group.set_leader_id current_leader_id) gi
              (alter (Group.set_leader_id new_leader_id) gi (groups d))
            = groups d) as ->.
    { rewrite list_alter_alter_eq. apply alter_fixed.
      intros x Hx. assert (x = g) as -> by congruence.
      destruct g. simpl in Hl. unfold Group.set_leader_id. simpl.
      by rewrite Hl. }
    assert (alter t ci (alter f ni (alter t ni (alter f ci
              (group_members d)))) = group_members d) as ->;
      [|by destruct d].
    apply list_eq. intros j. rewrite !list_lookup_alter.
    destruct (decide (ci = ni)) as [->|Hcn].
    + assert (c = n) as -> by congruence.
      repeat case_decide; subst; try done;
        rewrite Hni; simpl; f_equal; exact (flag_set_true _ Hcflag).
    + assert (GroupMember.is_leader n = false) as Hnfalse.
      { rewrite Hnflag. apply bool_decide_eq_false_2. intros Heq.
        apply Hcn.
        pose proof Hwf as (_ & _ & S & _).
        apply (NoDup_lookup _ _ _ new_leader_id S).
        - rewrite list_lookup_fmap, Hci. simpl. congruence.
        - rewrite list_lookup_fmap, Hni. simpl. congruence. }
      repeat case_decide; subst; try done;
        rewrite ?Hci, ?Hni; simpl; f_equal;
        first [exact (flag_set_true _ Hcflag)
              |exact (flag_set_false _ Hnfalse)].
Qed.

(** X12. On a reachable store, deleting a group right after its creation
    gives back the store as it was, provided no invitation carries the key
    the new group got. *)
Theorem create_group_then_delete_group (group : GroupCreate.t)
    (user_id new_id : UUID) (d d1 : DB) :
  reachable d →
  ¬ group_exists d new_id →
  (∀ i, i ∈ invites d → Invite.group_id i ≠ new_id) →
  run_call (CreateGroup group user_id new_id) d = (Return tt, d1) →
  run_call (DeleteGroup new_id user_id) d1 = (Return tt, d).
Proof.
  intros Hd Hfresh Hinv Hrun.
  pose proof (reachable_well_formed d Hd) as ([_ K2] & _).
  apply run_call_returns in Hrun as [_ ->].
  apply returns_with_run_call. simpl.
  eexists (length (groups d)), _. split_and!.
  - unfold find_group. simpl. apply list_find_snoc_fresh; [|done].
    intros y Hy Hid. apply Hfresh. by exists y.
  - done.
  - done.
  - simpl. rewrite delete_snoc, filter_app.
    rewrite (filter_all _ (group_members d)).
    + rewrite filter_cons_False by (simpl; intros Hne; by apply Hne).
      rewrite filter_nil, app_nil_r.
      rewrite filter_all by done. by destruct d.
    + intros m Hm Hmg. apply Hfresh. rewrite <-Hmg. by apply K2.
Qed.

(** X13. On a reachable store, after [delete_group] has returned the group
    is gone and every student who was a member of it is in no group any
    more; the memberships of all other students are as before. *)
Theorem delete_group_frees_members (group_id user_id : UUID) (d d' : DB) :
  reachable d →
  run_call (DeleteGroup group_id user_id) d = (Return tt, d') →
  ¬ group_exists d' group_id
  ∧ (∀ u, member_of d group_id u → ¬ in_any_group d' u)
  ∧ (∀ u g, g ≠ group_id → member_of d' g u ↔ member_of d g u).
Proof.
  intros Hd Hrun.
  pose proof (reachable_well_formed d Hd) as ([K1 K2] & _ & S & _).
  apply run_call_returns in Hrun as (gi & g & Hg & _ & _ & ->).
  apply find_group_lookup in Hg as [Hgi Hgid].
  split_and!.
  - intros (z & Hz & Hzid). simpl in Hz.
    rewrite (delete_by_key Group.id _ _ _ K1 Hgi) in Hz.
    apply list_elem_of_filter in Hz as [Hne _]. congruence.
  - intros u (m & Hm & Hmg & Hms) (x & Hx & Hxs). simpl in Hx.
    apply list_elem_of_filter in Hx as [Hxg Hx].
    assert (x = m) as ->; [|done].
    apply (unique_key_elem GroupMember.student_id (group_members d));
      [done..|congruence].
  - intros u g0 Hne. unfold member_of. simpl. split.
    + intros (m & [_ Hm]%list_elem_of_filter & Hrest). by exists m.
    + intros (m & Hm & Hmg & Hms). exists m. split; [|done].
      apply list_elem_of_filter. split; [congruence|done].
Qed.

(** X14. On a reachable store, after [remove_member] has returned the
    removed student is in no group any more, and the memberships of all
    other students are as before. *)
Theorem remove_member_frees_student (group_id member_id leader_id : UUID)
    (d d' : DB) :
  reachable d →
  run_call (RemoveMember group_id member_id leader_id) d = (Return tt, d') →
  ¬ in_any_group d' member_id
  ∧ (∀ u g, u ≠ member_id → member_of d' g u ↔ member_of d g u).
Proof.
  intros Hd Hrun.
  pose proof (reachable_well_formed d Hd) as (_ & _ & S & _).
  apply run_call_returns in Hrun
    as (gi & g & mi & m & Hg & _ & _ & Hm & ->).
  apply find_member_lookup in Hm as (Hmi & Hmg & Hms).
  assert (∀ x, x ∈ delete mi (group_members d) ↔
               x ∈ group_members d ∧ GroupMember.student_id x ≠ member_id)
    as Hdel.
  { intros x. rewrite (delete_by_key GroupMember.student_id _ _ _ S Hmi).
    rewrite list_elem_of_filter, Hms. tauto. }
  split.
  - intros (x & [_ Hne]%Hdel & Hxs). done.
  - intros u g0 Hne. unfold member_of. simpl. split.
    + intros (x & [Hx _]%Hdel & Hrest). by exists x.
    + intros (x & Hx & Hxg & Hxs). exists x. split; [|done].
      apply Hdel. split; [done|congruence].
Qed.

(** X15. On a reachable store [get_all_groups_for_user] answers with the
    empty list for a user who is in no group and with exactly one entry,
    that of the user's group, for a user who is in one: it never lists two
    groups. *)
Theorem get_all_groups_for_user_at_most_one (d : DB) :
  reachable d →
  ∀ user_id,
    let s := open_session d in
    let r := get_all_groups_for_user user_id s in
    (¬ in_any_group d user_id → r = (Return [], s))
    ∧ (∀ m, m ∈ group_members d → GroupMember.student_id m = user_id →
         ∃ gi g,
           find_group d (GroupMember.group_id m) = Some (gi, g)
           ∧ r = (Return
                    [GroupWithMembersResponse.mk (GroupMember.group_id m)
                       (Group.name g) (Group.leader_id g)
                       (omap (member_detail d)
                          (members_of_group d (GroupMember.group_id m)))],
                  s)).
Proof.
  intros Hd u s r. subst r.
  pose proof (reachable_well_formed d Hd) as ([_ K2] & _ & S & _).
  rewrite get_all_groups_for_user_run. simpl. split.
  - intros Hfree. rewrite filter_none; [done|].
    intros m Hm Hms. apply Hfree. by exists m.
  - intros m Hm Hms.
    rewrite (filter_the_one _ GroupMember.student_id _ m S Hm Hms)
      by (intros y _ Hy; congruence).
    destruct (list_find_is_Some _ _ (K2 m Hm)) as (gi & g & Hg).
    fold (find_group d (GroupMember.group_id m)) in Hg.
    exists gi, g. split; [done|]. simpl. unfold group_entry. rewrite Hg.
    apply find_group_lookup in Hg as [_ ->]. done.
Qed.

(** X16. On a reachable store, once the leadership has been handed over to
    another member, the new leader can remove the former leader: the call
    returns. *)
Theorem former_leader_can_be_removed
    (group_id new_leader_id current_leader_id : UUID) (d d1 : DB) :
  reachable d →
  new_leader_id ≠ current_leader_id →
  run_call (TransferLeader group_id new_leader_id current_leader_id) d
  = (Return tt, d1) →
  ∃ d2, run_call (RemoveMember group_id current_leader_id new_leader_id) d1
        = (Return tt, d2)
        ∧ ¬ member_of d2 group_id current_leader_id
        ∧ member_of d2 group_id new_leader_id.
Proof.
  intros Hd Hne Hrun.
  assert (reachable d1) as Hd1
    by exact (step_reachable (TransferLeader _ _ _) d d1 Hd I Hrun).
  pose proof (reachable_well_formed d1 Hd1) as (_ & _ & S1 & _).
  apply run_call_returns in Hrun
    as (gi & g & ci & c & ni & n & Hg & Hl & Hc & Hn & ->).
  assert (∀ b x, GroupMember.group_id (GroupMember.set_is_leader b x)
                 = GroupMember.group_id x
                 ∧ GroupMember.student_id (GroupMember.set_is_leader b x)
                   = GroupMember.student_id x) as Hkeys by done.
  set (d1 := mkDB _ _ _ _ _ _) in *.
  assert (∃ c', find_member d1 group_id current_leader_id = Some (ci, c'))
    as [c' Hc'].
  { eexists. unfold find_member, d1. simpl.
    apply find_member_alter; [apply Hkeys|].
    apply find_member_alter; [apply Hkeys|]. exact Hc. }
  assert (∃ n', find_member d1 group_id new_leader_id = Some (ni, n'))
    as [n' Hn'].
  { eexists. unfold find_member, d1. simpl.
    apply find_member_alter; [apply Hkeys|].
    apply find_member_alter; [apply Hkeys|]. exact Hn. }
  eexists. split_and!.
  - apply returns_with_run_call. simpl.
    eexists gi, _, ci, c'.
    split_and!;
      [unfold find_group, d1; simpl;
       by apply (find_group_alter _ d _ _ gi gi g)
      |by rewrite decide_True|congruence|exact Hc'|reflexivity].
  - apply find_member_lookup in Hc' as (Hci' & _ & Hcs').
    intros (x & Hx & _ & Hxs).
    change (x ∈ delete ci (group_members d1)) in Hx.
    rewrite (delete_by_key GroupMember.student_id (group_members d1)
               ci c' S1 Hci') in Hx.
    apply list_elem_of_filter in Hx as [Hxne _]. congruence.
  - apply find_member_lookup in Hc' as (Hci' & _ & Hcs').
    apply find_member_lookup in Hn' as (Hni' & Hng' & Hns').
    exists n'. split; [|done].
    change (n' ∈ delete ci (group_members d1)).
    rewrite (delete_by_key GroupMember.student_id (group_members d1)
               ci c' S1 Hci').
    apply list_elem_of_filter. split; [congruence|].
    by eapply list_elem_of_lookup_2.
Qed.

(** X17. A group that has registered a thesis is locked: on the store that
    [register_thesis_for_group] committed, [delete_group] by the leader
    raises Conflict, by anyone else Forbidden, and another registration by
    the leader raises Conflict whatever the thesis. *)
Theorem registered_group_is_locked (group_id thesis_id user_id : UUID)
    (d d1 : DB) :
  run_call (RegisterThesisForGroup group_id thesis_id user_id) d
  = (Return tt, d1) →
  run_call (DeleteGroup group_id user_id) d1 = (Raise Conflict, d1)
  ∧ (∀ u, u ≠ user_id →
          run_call (DeleteGroup group_id u) d1 = (Raise Forbidden, d1))
  ∧ (∀ t, run_call (RegisterThesisForGroup group_id t user_id) d1
          = (Raise Conflict, d1)).
Proof.
  intros Hrun.
  apply run_call_returns in Hrun
    as (gi & g & ti & t & Hg & Hl & _ & _ & _ & ->).
  set (d1 := mkDB _ _ _ _ _ _).
  assert (list_find (λ z, Group.id z = group_id) (groups d1)
          = Some (gi, Group.set_thesis_id (Some thesis_id) g)) as Hg1.
  { unfold d1. simpl.
    rewrite (find_group_alter _ d _ _ gi gi g); [|done|done].
    by rewrite decide_True. }
  unfold run_call, exec, delete_group, register_thesis_for_group.
  unfold d1 in *. simpl in Hg1.
  split_and!; [|intros u Hu|intros t0]; run; rewrite Hg1; simpl;
    repeat case_decide; try done; congruence.
Qed.

(** X18. On a reachable store the leader flag in the answer of
    [get_detailed_members_of_group] marks the leader of the group and no
    one else, and every listed user is a member of the group. *)
Theorem member_details_flag_the_leader (d : DB) :
  reachable d →
  ∀ group_id gi g,
    find_group d group_id = Some (gi, g) →
    let s := open_session d in
    ∃ members_list,
      get_detailed_members_of_group group_id s = (Return members_list, s)
      ∧ ∀ x, x ∈ members_list →
          member_of d group_id (MemberDetailResponse.user_id x)
          ∧ (MemberDetailResponse.is_leader x = true
             ↔ MemberDetailResponse.user_id x = Group.leader_id g).
Proof.
  intros Hd gid gi g Hg s.
  pose proof (reachable_well_formed d Hd) as Hwf.
  rewrite get_detailed_members_of_group_run. simpl. rewrite Hg.
  eexists. split; [done|].
  intros x (m & Hm & Hx)%list_elem_of_omap.
  apply list_elem_of_filter in Hm as [Hmg Hm].
  apply member_detail_user_id in Hx as [-> ->].
  split; [by exists m|].
  assert (∃ mi, find_member d gid (GroupMember.student_id m) = Some (mi, m))
    as [mi Hmi].
  { destruct (list_find_is_Some
                (λ x, GroupMember.group_id x = gid
                      ∧ GroupMember.student_id x = GroupMember.student_id m)
                (group_members d)) as (mi & m' & Hf); [by exists m|].
    exists mi. unfold find_member. rewrite Hf. do 2 f_equal.
    apply list_find_Some in Hf as (Hl & [_ Hs] & _).
    destruct Hwf as (_ & _ & S & _).
    apply (unique_key_elem GroupMember.student_id (group_members d));
      [done|by eapply list_elem_of_lookup_2|done..]. }
  rewrite (well_formed_flags _ _ _ _ _ _ _ Hwf Hg Hmi).
  by rewrite bool_decide_eq_true.
Qed.

(** X19. No write operation, whether it returns or raises, touches the two
    profile tables or adds an invitation or a thesis: what is left of the
    invitations was there before, the ids of the thesis rows are as before,
    and a thesis row that changed has status 2. *)
Theorem write_operations_frame (c : call) (d : DB) :
  let d' := snd (run_call c d) in
  informations d' = informations d
  ∧ student_infos d' = student_infos d
  ∧ (∀ i, i ∈ invites d' → i ∈ invites d)
  ∧ Thesis.id <$> theses d' = Thesis.id <$> theses d
  ∧ (∀ t, t ∈ theses d' → t ∈ theses d ∨ Thesis.status t = 2).
Proof.
  intros d'. subst d'.
  destruct (run_call c d) as [[[]|e] d'] eqn:Hrun; simpl.
  - apply run_call_returns in Hrun.
    destruct c; simpl in Hrun;
      repeat match goal with
        | H : ∃ _, _ |- _ => destruct H as [? H]
        | H : _ ∧ _ |- _ => destruct H as [? H]
        end; subst d'; simpl; split_and!; try done; auto.
    + intros i [_ Hi]%list_elem_of_filter. done.
    + rewrite (list_fmap_alter _ _ id); [by rewrite list_alter_id|].
      by apply Forall_forall.
    + intros t [j Hj]%list_elem_of_lookup.
      rewrite list_lookup_alter in Hj. case_decide.
      * subst. destruct (theses d !! j) eqn:E; simplify_eq/=. by right.
      * left. by eapply list_elem_of_lookup_2.
  - apply run_call_raises in Hrun as ->. split_and!; try done. auto.
Qed.

(** ** The further properties at work on the example stores *)

Lemma store_start_reachable : reachable store_start.
Proof. by apply reachable_initial. Qed.

Lemma store_registered_reachable : reachable store_registered.
Proof.
  by apply (step_reachable (RegisterThesisForGroup 100 8 1) store_two
              store_registered store_two_reachable).
Qed.

Lemma transfer_leader_without_leader_row_witness :
  transfer_leader 100 2 1 (open_session store_leaderless)
  = (Raise AttributeError, open_session store_leaderless).
Proof.
  apply (transfer_leader_without_leader_row 100 2 1
           (open_session store_leaderless) 0 (Group.mk 100 "G1" 1 1 None)).
  - reflexivity.
  - reflexivity.
  - exists (GroupMember.mk 100 2 false). split; [|done].
    apply list_elem_of_In. simpl. tauto.
  - rewrite <-find_member_None. reflexivity.
Defined.

Lemma get_members_on_reachable_witness :
  ∃ rows,
    get_members 100 (open_session store_two)
    = (Return rows, open_session store_two)
    ∧ Z.of_nat (length rows) = 2.
Proof.
  destruct (get_members_on_reachable store_two store_two_reachable 100)
    as (rows & Hrun & _ & Hlen & _).
  exists rows. split; [exact Hrun|].
  exact (Hlen 0%nat (Group.mk 100 "G1" 1 2 None) eq_refl).
Defined.

Lemma group_size_between_one_and_four_witness :
  group_sizes_bounded store_two.
Proof.
  apply (group_size_between_one_and_four store_two store_two_reachable).
Defined.

Lemma memberships_reference_groups_witness : member_of store_two 100 1.
Proof.
  destruct (memberships_reference_groups store_two store_two_reachable)
    as (_ & _ & Hleader).
  apply (Hleader (Group.mk 100 "G1" 1 2 None)).
  apply list_elem_of_In. simpl. tauto.
Defined.

Lemma thesis_held_by_one_group_witness :
  ∃ th, th ∈ theses store_registered
        ∧ Thesis.id th = 8%N ∧ Thesis.status th = 2.
Proof.
  destruct (thesis_held_by_one_group store_registered
              store_registered_reachable) as [_ Hrow].
  apply (Hrow (Group.mk 100 "G1" 1 2 (Some 8%N))); [|done].
  apply list_elem_of_In. simpl. tauto.
Defined.

Lemma add_member_then_remove_member_witness :
  run_call (RemoveMember 100 3 1) store_three = (Return tt, store_two).
Proof.
  by apply (add_member_then_remove_member 100 (GroupMemberCreate.mk 3) 1
              store_two store_three).
Defined.

Lemma transfer_leader_there_and_back_witness :
  run_call (TransferLeader 100 1 2) store_handed = (Return tt, store_two).
Proof.
  by apply (transfer_leader_there_and_back 100 2 1 store_two store_handed
              store_two_reachable).
Defined.

Lemma create_group_then_delete_group_witness :
  run_call (DeleteGroup 300 1)
    (mkDB [Group.mk 300 "G3" 1 1 None] [GroupMember.mk 300 1 true]
       (invites store_start) (theses store_start)
       (informations store_start) (student_infos store_start))
  = (Return tt, store_start).
Proof.
  apply (create_group_then_delete_group (GroupCreate.mk "G3") 1 300
           store_start _ store_start_reachable).
  - rewrite <-find_group_None. reflexivity.
  - intros i Hi. in_rows Hi; discriminate.
  - reflexivity.
Defined.

Lemma delete_group_frees_members_witness :
  ¬ in_any_group
      (mkDB [] [] [Invite.mk 200 2] (theses store_start)
         (informations store_start) (student_infos store_start)) 2.
Proof.
  destruct (delete_group_frees_members 100 1 store_two _ store_two_reachable
              eq_refl) as (_ & Hfree & _).
  apply Hfree. exists (GroupMember.mk 100 2 false). split; [|done].
  apply list_elem_of_In. simpl. tauto.
Defined.

Lemma remove_member_frees_student_witness : ¬ in_any_group store_created 2.
Proof.
  apply (remove_member_frees_student 100 2 1 store_two store_created
           store_two_reachable eq_refl).
Defined.

Lemma get_all_groups_for_user_at_most_one_witness :
  get_all_groups_for_user 3 (open_session store_two)
  = (Return [], open_session store_two)
  ∧ ∃ entry, get_all_groups_for_user 2 (open_session store_two)
             = (Return [entry], open_session store_two).
Proof.
  pose proof (get_all_groups_for_user_at_most_one store_two
                store_two_reachable) as H.
  split.
  - apply (H 3%N). intros (m & Hm & Hs). in_rows Hm; discriminate.
  - destruct (H 2%N) as [_ Hone].
    destruct (Hone (GroupMember.mk 100 2 false)) as (gi & g & _ & Hrun).
    + apply list_elem_of_In. simpl. tauto.
    + done.
    + eexists. exact Hrun.
Defined.

Lemma former_leader_can_be_removed_witness :
  ∃ d2, run_call (RemoveMember 100 1 2) store_handed = (Return tt, d2)
        ∧ ¬ member_of d2 100 1 ∧ member_of d2 100 2.
Proof.
  by apply (former_leader_can_be_removed 100 2 1 store_two store_handed
              store_two_reachable).
Defined.

Lemma registered_group_is_locked_witness :
  run_call (DeleteGroup 100 1) store_registered
  = (Raise Conflict, store_registered).
Proof.
  by apply (registered_group_is_locked 100 8 1 store_two store_registered).
Defined.

Lemma member_details_flag_the_leader_witness :
  ∃ members_list,
    get_detailed_members_of_group 100 (open_session store_two)
    = (Return members_list, open_session store_two)
    ∧ ∀ x, x ∈ members_list →
        member_of store_two 100 (MemberDetailResponse.user_id x)
        ∧ (MemberDetailResponse.is_leader x = true
           ↔ MemberDetailResponse.user_id x = 1%N).
Proof.
  by apply (member_details_flag_the_leader store_two store_two_reachable
              100 0 (Group.mk 100 "G1" 1 2 None)).
Defined.

Lemma create_group_checks_witness :
  create_group (GroupCreate.mk "G2") 2 200 (open_session store_two)
  = (Raise Conflict, open_session store_two)
  ∧ create_group (GroupCreate.mk "G1") 1 100 (open_session store_start)
    = (Return (Group.mk 100 "G1" 1 1 None),
       mkSession store_created store_created 1).
Proof.
  split.
  - apply (create_group_checks (GroupCreate.mk "G2") 2 200
             (open_session store_two)).
    exists (GroupMember.mk 100 2 false). split; [|done].
    apply list_elem_of_In. simpl. tauto.
  - apply (create_group_checks (GroupCreate.mk "G1") 1 100
             (open_session store_start)).
    intros (m & Hm & _). in_rows Hm.
Defined.
